(** * men-crud-guide: the employee CRUD API

    A shallow embedding of the Express application of the repository:

    - [JS]: the JavaScript values that travel in request bodies, with the
      truthiness that the [!x] operator of the presence checks looks at;
    - [Employee]: the Mongoose model of [models/Employee.js]: the schema
      table, the documents, and the in-memory meaning of the five driver
      calls used by the routes ([find], [findOne], [findOneAndUpdate],
      [findOneAndDelete], [save]);
    - [Async]: handler bodies as programs that await driver calls inside a
      [try]/[catch];
    - [Routes]: the five route handlers of [routes/*.js];
    - [App]: the routing table built by [app.js];
    - [Observe]: the vocabulary of the statements (what a run answers,
      the collection it leaves, the driver calls it makes);
    - [Sample]: two employees and a few request bodies;
    - [AnyDriver], [Server], [Constraints]: the handlers against an
      arbitrary driver, the application answering whole requests, and
      what the validators of the schema ask of a document.

    Scope of the model.  Numbers are integers (the presence checks only
    separate zero from non-zero).  The collection is an ordered list of
    documents; MongoDB's generated [_id] and Mongoose's [__v] are left out,
    since no handler reads them.  The driver rejects a call for reasons
    that are visible in the data (casting, schema validators, unique
    indexes); the handlers' [catch] branches are nevertheless modelled for
    every rejection.  A handler finds in [req.body] what [express.json()]
    left there: the parsed JSON object, or nothing when no body was
    parsed.  Route paths are compared as written in lower case and without
    a trailing slash, and requests carry one of the four methods the
    application registers. *)

From Stdlib Require Import ZArith String Ascii List Bool Lia.
From stdpp Require Import base option list strings gmap.
Import ListNotations.

Local Open Scope string_scope.
Local Open Scope Z_scope.
Local Open Scope list_scope.

(* ===================================================================== *)
(** ** JavaScript values *)
(* ===================================================================== *)

Module JS.

(** The values a handler can find in [req.body], plus [Date] objects,
    which the schema casts [date_hired] to.  [JObj] stands for any other
    object or array: always truthy, never of a schema type. *)
Inductive jsval : Type :=
| JUndefined
| JNull
| JBool (b : bool)
| JNum (n : Z)
| JStr (s : string)
| JDate (ms : Z)
| JObj.

#[global] Instance jsval_eq_dec : EqDecision jsval.
Proof. solve_decision. Defined.

(** ToBoolean: [undefined], [null], [false], [0] and [''] are falsy. *)
Definition truthy (v : jsval) : bool :=
  match v with
  | JUndefined | JNull => false
  | JBool b => b
  | JNum n => negb (n =? 0)
  | JStr s => negb (String.eqb s "")
  | JDate _ | JObj => true
  end.

(** The [!x] operator. *)
Definition not (v : jsval) : bool := negb (truthy v).

(** Property read [o.k], as the destructuring [const { k } = o] does:
    an absent key reads as [undefined]. *)
Definition get (o : gmap string jsval) (k : string) : jsval :=
  default JUndefined (o !! k).

End JS.
Export JS(jsval(..), jsval_eq_dec, truthy, get).

(* ===================================================================== *)
(** ** models/Employee.js *)
(* ===================================================================== *)

Module Employee.

Inductive SchemaTypeName : Type := SchemaString | SchemaNumber | SchemaDate.

(** The options a path of the schema can carry.  A validator is kept
    with its message, as the [[value, message]] pairs of the source. *)
Record SchemaType : Type := {
  type : SchemaTypeName;
  required : option string;
  unique : bool;
  minlength : option (nat * string);
  match_ : option ((string -> bool) * string);
  enum : option (list string);
  min : option (Z * string);
  max : option (Z * string)
}.

(** [\s] on the ASCII range (strings are read byte by byte; beyond ASCII
    JavaScript knows further spaces and counts lengths in UTF-16
    units). *)
Definition is_space (c : ascii) : bool :=
  let n := nat_of_ascii c in
  (Nat.eqb n 32 || (Nat.leb 9 n && Nat.leb n 13))%bool.

Definition head_nonspace (s : string) : bool :=
  match s with
  | EmptyString => false
  | String c _ => negb (is_space c)
  end.

(** [\S+\.\S+] at the start of [s]; [seen] tells that the first [\S+]
    has already consumed a character. *)
Fixpoint domain (seen : bool) (s : string) : bool :=
  match s with
  | EmptyString => false
  | String c rest =>
      negb (is_space c)
      && ((seen && Ascii.eqb c "." && head_nonspace rest) || domain true rest)
  end.

(** [/\S+@\S+\.\S+/.test(s)]: the pattern is searched anywhere in [s];
    [prev] tells that the character before the current one is [\S]. *)
Fixpoint test_from (prev : bool) (s : string) : bool :=
  match s with
  | EmptyString => false
  | String c rest =>
      (prev && Ascii.eqb c "@" && domain false rest)
      || test_from (negb (is_space c)) rest
  end.

Definition email_regex (s : string) : bool := test_from false s.

(** [employeeSchema], path by path. *)
Definition employeeSchema : list (string * SchemaType) :=
  [ ("employee_id",
      {| type := SchemaString;
         required := Some "Employee ID is required";
         unique := true;
         minlength := None; match_ := None; enum := None;
         min := None; max := None |});
    ("name",
      {| type := SchemaString;
         required := Some "Employee Name is required";
         unique := false;
         minlength := Some (3%nat, "Employee Name must be at least 3 characters long");
         match_ := None; enum := None; min := None; max := None |});
    ("email",
      {| type := SchemaString;
         required := None;
         unique := true;
         minlength := None;
         match_ := Some (email_regex, "Please use a valid email address");
         enum := None; min := None; max := None |});
    ("job_title",
      {| type := SchemaString;
         required := Some "Job title is required";
         unique := false;
         minlength := None; match_ := None;
         enum := Some ["Software Developer"; "Product Manager";
                       "Graphic Designer"; "HR"];
         min := None; max := None |});
    ("age",
      {| type := SchemaNumber;
         required := Some "Path `age` is required.";
         unique := false;
         minlength := None; match_ := None; enum := None;
         min := Some (19, "Employees age must be at least 18 or above");
         max := Some (120, "Employee age must be below 120!") |});
    ("date_hired",
      {| type := SchemaDate;
         required := Some "Path `date_hired` is required.";
         unique := false;
         minlength := None; match_ := None; enum := None;
         min := None; max := None |}) ].

(** The paths that carry [unique: true]. *)
Definition unique_paths (schema : list (string * SchemaType)) : list string :=
  map fst (List.filter (fun p => unique (snd p)) schema).

Definition schema_path (p : string) : option SchemaType :=
  snd <$> List.find (fun q => String.eqb (fst q) p) employeeSchema.

(** A document of the collection: one value per schema path. *)
Record document : Type := Document {
  employee_id : jsval;
  name : jsval;
  email : jsval;
  job_title : jsval;
  age : jsval;
  date_hired : jsval
}.

#[global] Instance document_eq_dec : EqDecision document.
Proof. solve_decision. Defined.

Definition get_path (d : document) (p : string) : jsval :=
  if String.eqb p "employee_id" then employee_id d
  else if String.eqb p "name" then name d
  else if String.eqb p "email" then email d
  else if String.eqb p "job_title" then job_title d
  else if String.eqb p "age" then age d
  else if String.eqb p "date_hired" then date_hired d
  else JUndefined.

(** The update object of the PUT route: the five paths it writes. *)
Record update : Type := Update {
  set_name : jsval;
  set_email : jsval;
  set_job_title : jsval;
  set_age : jsval;
  set_date_hired : jsval
}.

Definition updated_paths : list string :=
  ["name"; "email"; "job_title"; "age"; "date_hired"].

(** [$set] of one path: a key whose value is [undefined] is stripped from
    the update, so the path keeps its value. *)
Definition assign (v old : jsval) : jsval :=
  match v with
  | JUndefined => old
  | _ => v
  end.

(** [$set] of the five paths; employee_id is not among them. *)
Definition apply_update (u : update) (d : document) : document :=
  {| employee_id := employee_id d;
     name := assign (set_name u) (name d);
     email := assign (set_email u) (email d);
     job_title := assign (set_job_title u) (job_title d);
     age := assign (set_age u) (age d);
     date_hired := assign (set_date_hired u) (date_hired d) |}.

(** The outcome of an awaited promise. *)
Inductive outcome (A : Type) : Type :=
| Resolved (a : A)
| Rejected (error : string).
Arguments Resolved {A} a.
Arguments Rejected {A} error.

Definition outcome_value {A : Type} (o : outcome A) : option A :=
  match o with
  | Resolved a => Some a
  | Rejected _ => None
  end.

(** The driver calls the routes make.  The filter of the three
    [findOne*] calls is always [{ employee_id }] with the string taken
    from the URL. *)
Inductive query : Type -> Type :=
| find : query (list document)
| findOne (employee_id : string) : query (option document)
| findOneAndUpdate (employee_id : string) (u : update) : query (option document)
| findOneAndDelete (employee_id : string) : query (option document)
| save (doc : document) : query document.

(** The [employees] collection, in insertion order. *)
Definition collection : Type := list document.

Definition is_type (t : SchemaTypeName) (v : jsval) : bool :=
  match t, v with
  | SchemaString, JStr _ => true
  | SchemaNumber, JNum _ => true
  | SchemaDate, JDate _ => true
  | _, _ => false
  end.

(** Splits a collection at the first document accepted by [f]. *)
Fixpoint split_first (f : document -> bool) (c : collection)
  : option (collection * document * collection) :=
  match c with
  | [] => None
  | d :: rest =>
      if f d then Some ([], d, rest)
      else
        match split_first f rest with
        | Some (before, x, after) => Some (d :: before, x, after)
        | None => None
        end
  end.

Definition has_employee_id (k : string) (d : document) : bool :=
  bool_decide (employee_id d = JStr k).

(** A unique index holds an absent value as [null]. *)
Definition index_key (v : jsval) : jsval :=
  match v with
  | JUndefined => JNull
  | _ => v
  end.

(** E11000: the first of [paths] on which [d] collides with a document
    of [others]. *)
Fixpoint duplicate_key (paths : list string) (others : collection) (d : document)
  : option string :=
  match paths with
  | [] => None
  | p :: rest =>
      if existsb (fun o => bool_decide (index_key (get_path o p) = index_key (get_path d p)))
           others
      then Some ("E11000 duplicate key error collection: employees index: " +:+ p +:+ "_1")
      else duplicate_key rest others d
  end.

Section Driver.

(** Mongoose converts a value that is not of the declared type when it
    can (a date string to a [Date], a numeric string to a number, ...).
    These conversions are the library's; they are a parameter here. *)
Variable convert : SchemaTypeName -> jsval -> option jsval.

(** Casting to a schema type: [null] and [undefined] pass as they are, a
    value of the type is kept, any other value is converted to the type
    or refused (CastError). *)
Definition cast (t : SchemaTypeName) (v : jsval) : option jsval :=
  match v with
  | JUndefined | JNull => Some v
  | _ =>
      if is_type t v then Some v
      else
        match convert t v with
        | Some v' => if is_type t v' then Some v' else None
        | None => None
        end
  end.

Definition cast_path (p : string) (v : jsval) : option jsval :=
  match schema_path p with
  | Some t => cast (type t) v
  | None => None
  end.

Definition cast_document (d : document) : option document :=
  employee_id' ← cast_path "employee_id" (employee_id d);
  name' ← cast_path "name" (name d);
  email' ← cast_path "email" (email d);
  job_title' ← cast_path "job_title" (job_title d);
  age' ← cast_path "age" (age d);
  date_hired' ← cast_path "date_hired" (date_hired d);
  Some (Document employee_id' name' email' job_title' age' date_hired').

Definition cast_update (u : update) : option update :=
  name' ← cast_path "name" (set_name u);
  email' ← cast_path "email" (set_email u);
  job_title' ← cast_path "job_title" (set_job_title u);
  age' ← cast_path "age" (set_age u);
  date_hired' ← cast_path "date_hired" (set_date_hired u);
  Some (Update name' email' job_title' age' date_hired').

(** The built-in validators, on a value already cast.  Each returns
    the message of the failing validator. *)
Definition check_required (t : SchemaType) (v : jsval) : option string :=
  match required t with
  | None => None
  | Some msg =>
      match v with
      | JStr s => if String.eqb s "" then Some msg else None
      | JNum _ | JDate _ => None
      | _ => Some msg
      end
  end.

Definition check_minlength (t : SchemaType) (v : jsval) : option string :=
  match minlength t, v with
  | Some (n, msg), JStr s => if Nat.leb n (String.length s) then None else Some msg
  | _, _ => None
  end.

Definition check_match (t : SchemaType) (v : jsval) : option string :=
  match match_ t, v with
  | Some (re, msg), JStr s =>
      if String.eqb s "" then None else if re s then None else Some msg
  | _, _ => None
  end.

Definition check_enum (t : SchemaType) (v : jsval) : option string :=
  match enum t, v with
  | Some values, JStr s =>
      if existsb (String.eqb s) values then None
      else Some ("`" +:+ s +:+ "` is not a valid enum value")
  | _, _ => None
  end.

Definition check_min (t : SchemaType) (v : jsval) : option string :=
  match min t, v with
  | Some (lo, msg), JNum n => if lo <=? n then None else Some msg
  | _, _ => None
  end.

Definition check_max (t : SchemaType) (v : jsval) : option string :=
  match max t, v with
  | Some (hi, msg), JNum n => if n <=? hi then None else Some msg
  | _, _ => None
  end.

Definition first_error (checks : list (option string)) : option string :=
  List.fold_right (fun c acc => match c with Some e => Some e | None => acc end)
    None checks.

Definition validate_path (t : SchemaType) (v : jsval) : option string :=
  first_error [check_required t v; check_minlength t v; check_match t v;
               check_enum t v; check_min t v; check_max t v].

(** [doc.validate()]: every path of the schema, in order. *)
Definition validate (d : document) : option string :=
  first_error (map (fun p => validate_path (snd p) (get_path d (fst p))) employeeSchema).

(** The meaning of a driver call on the collection: its outcome and
    the collection it leaves. *)
Definition exec {A : Type} (q : query A) (c : collection) : outcome A * collection :=
  match q in query T return outcome T * collection with
  | find => (Resolved c, c)
  | findOne k => (Resolved (List.find (has_employee_id k) c), c)
  | findOneAndUpdate k u =>
      match cast_update u with
      | None => (Rejected "Cast failed", c)
      | Some u' =>
          match split_first (has_employee_id k) c with
          | None => (Resolved None, c)
          | Some (before, d, after) =>
              let d' := apply_update u' d in
              match duplicate_key
                      (List.filter (fun p => bool_decide (p ∈ updated_paths))
                         (unique_paths employeeSchema))
                      (before ++ after) d' with
              | Some e => (Rejected e, c)
              | None => (Resolved (Some d'), before ++ d' :: after)
              end
          end
      end
  | findOneAndDelete k =>
      match split_first (has_employee_id k) c with
      | None => (Resolved None, c)
      | Some (before, d, after) => (Resolved (Some d), before ++ after)
      end
  | save doc =>
      match cast_document doc with
      | None => (Rejected "Employee validation failed: Cast failed", c)
      | Some d =>
          match validate d with
          | Some e => (Rejected ("Employee validation failed: " +:+ e), c)
          | None =>
              match duplicate_key (unique_paths employeeSchema) c d with
              | Some e => (Rejected e, c)
              | None => (Resolved d, c ++ [d])
              end
          end
      end
  end.

End Driver.

End Employee.

(* ===================================================================== *)
(** ** Asynchronous handler bodies *)
(* ===================================================================== *)

Module Async.
Import Employee.

(** The body of an [async] function: it returns, throws, or awaits a
    driver call and goes on with its outcome. *)
Inductive prog (R : Type) : Type :=
| Return (r : R)
| Throw (error : string)
| Await {A : Type} (q : query A) (k : outcome A -> prog R).
Arguments Return {R} r.
Arguments Throw {R} error.
Arguments Await {R A} q k.

(** [await q]: the value of a resolved promise; a rejection is thrown. *)
Definition await {A : Type} (q : query A) : prog A :=
  Await q (fun o => match o with
                    | Resolved a => Return a
                    | Rejected e => Throw e
                    end).

Fixpoint bind {A B : Type} (p : prog A) (f : A -> prog B) : prog B :=
  match p with
  | Return a => f a
  | Throw e => Throw e
  | Await q k => Await q (fun o => bind (k o) f)
  end.

#[global] Instance prog_ret : MRet prog := fun _ a => Return a.
#[global] Instance prog_bind : MBind prog := fun _ _ f p => bind p f.

(** [try { p } catch (error) { h error.message }]. *)
Fixpoint try_catch {R : Type} (p : prog R) (h : string -> prog R) : prog R :=
  match p with
  | Return r => Return r
  | Throw e => h e
  | Await q k => Await q (fun o => try_catch (k o) h)
  end.

(** One driver call of a run, with its outcome. *)
Inductive event : Type :=
| Called {A : Type} (q : query A) (o : outcome A).

Section Run.
Variable convert : SchemaTypeName -> jsval -> option jsval.

(** Runs a body against the collection: what it returns or throws,
    the collection it leaves, and the driver calls it made. *)
Fixpoint run {R : Type} (p : prog R) (c : collection)
  : outcome R * collection * list event :=
  match p with
  | Return r => (Resolved r, c, [])
  | Throw e => (Rejected e, c, [])
  | Await q k =>
      let '(o, c') := exec convert q c in
      let '(r, c'', t) := run (k o) c' in
      (r, c'', Called q o :: t)
  end.

End Run.

(** The save calls of a run that resolved, with the documents they were
    given and returned. *)
Definition saved (e : event) : option (document * document) :=
  match e with
  | Called q o =>
      match q in query T return outcome T -> option (document * document) with
      | save doc => fun o => match o with
                             | Resolved d => Some (doc, d)
                             | Rejected _ => None
                             end
      | _ => fun _ => None
      end o
  end.

End Async.

(* ===================================================================== *)
(** ** routes/*.js *)
(* ===================================================================== *)

Module Routes.
Import Employee Async.

(** What a handler reads of a request: [req.params.employee_id], bound
    by the [:employee_id] segment of the route (unused by the ['/']
    routes), and [req.body]: the object [express.json()] parsed, or
    [None] for [undefined], when it parsed nothing and left [req.body]
    unset.  (An array body reads like the empty object: none of the
    fields is a property of it.) *)
Record request : Type := Request {
  params_employee_id : string;
  body : option (gmap string jsval)
}.

(** The TypeError of [const { k, ... } = req.body] on an undefined
    [req.body], as its message names the first property [k]. *)
Definition cannot_destructure (k : string) : string :=
  "Cannot destructure property '" +:+ k
  +:+ "' of 'req.body' as it is undefined.".

(** The JSON payloads the handlers send. *)
Inductive payload : Type :=
| message (text : string)
| employee (d : document)
| employees (l : list document).

Record response : Type := Response {
  status : nat;
  json : payload
}.

(** [res.status(code).json(payload)]. *)
Definition status_json (code : nat) (p : payload) : response :=
  {| status := code; json := p |}.

(** routes/createEmployee.js: [router.post('/')]. *)
Definition createEmployee (req : request) : prog response :=
  try_catch
    (match body req with
     | None => Throw (cannot_destructure "employee_id")
     | Some o =>
         let employee_id := get o "employee_id" in
         let name := get o "name" in
         let email := get o "email" in
         let job_title := get o "job_title" in
         let age := get o "age" in
         let date_hired := get o "date_hired" in
         if JS.not employee_id || JS.not name || JS.not email
            || JS.not job_title || JS.not age || JS.not date_hired
         then Return (status_json 400 (message "All fields are required."))
         else
           let newEmployee :=
             Document employee_id name email job_title age date_hired in
           savedEmployee ← await (save newEmployee);
           Return (status_json 201 (employee savedEmployee))
     end)
    (fun error => Return (status_json 400 (message error))).

(** routes/readEmployee.js: [router.get('/')]. *)
Definition readEmployees (req : request) : prog response :=
  try_catch
    (employees_ ← await find;
     if Nat.eqb (List.length employees_) 0
     then Return (status_json 404 (message "No employees found"))
     else Return (status_json 200 (employees employees_)))
    (fun error => Return (status_json 400 (message error))).

(** routes/readEmployee.js: [router.get('/:employee_id')]. *)
Definition readEmployee (req : request) : prog response :=
  try_catch
    (let employee_id := params_employee_id req in
     found ← await (findOne employee_id);
     match found with
     | None =>
         Return (status_json 404
                   (message ("Employee with ID " +:+ employee_id +:+ " not found")))
     | Some d => Return (status_json 200 (employee d))
     end)
    (fun error => Return (status_json 400 (message error))).

(** routes/updateEmployee.js: [router.put('/:employee_id')]. *)
Definition updateEmployee (req : request) : prog response :=
  try_catch
    (let employee_id := params_employee_id req in
     match body req with
     | None => Throw (cannot_destructure "name")
     | Some o =>
         let name := get o "name" in
         let email := get o "email" in
         let job_title := get o "job_title" in
         let age := get o "age" in
         let date_hired := get o "date_hired" in
         if JS.not name || JS.not email || JS.not job_title
            || JS.not age || JS.not date_hired
         then Return (status_json 400 (message "All fields are required."))
         else
           updatedEmployee ←
             await (findOneAndUpdate employee_id
                      (Update name email job_title age date_hired));
           match updatedEmployee with
           | None =>
               Return (status_json 404
                         (message ("Employee with employee_id " +:+ employee_id
                                   +:+ " not found")))
           | Some d => Return (status_json 200 (employee d))
           end
     end)
    (fun error => Return (status_json 400 (message error))).

(** routes/deleteEmployee.js: [router.delete('/:employee_id')]. *)
Definition deleteEmployee (req : request) : prog response :=
  try_catch
    (let employee_id := params_employee_id req in
     deletedEmployee ← await (findOneAndDelete employee_id);
     match deletedEmployee with
     | None =>
         Return (status_json 404
                   (message ("Employee with employee_id " +:+ employee_id
                             +:+ " not found")))
     | Some _ =>
         Return (status_json 200
                   (message ("Employee with employee_id " +:+ employee_id
                             +:+ " deleted successfully")))
     end)
    (fun error => Return (status_json 400 (message error))).

End Routes.

(* ===================================================================== *)
(** ** app.js *)
(* ===================================================================== *)

Module App.
Import Employee Async Routes.

(** The methods the application registers routes for. *)
Inductive method : Type := GET | POST | PUT | DELETE.

#[global] Instance method_eq_dec : EqDecision method.
Proof. solve_decision. Defined.

(** A segment of a route path: literal text, or a named parameter such
    as [:employee_id], which binds any one segment. *)
Inductive segment : Type :=
| Lit (s : string)
| Param (name : string).

#[global] Instance segment_eq_dec : EqDecision segment.
Proof. solve_decision. Defined.

(** The functions that answer requests. *)
Inductive endpoint : Type :=
| CreateEmployee
| ReadEmployees
| ReadEmployee
| UpdateEmployee
| DeleteEmployee
| Root
| Health.

#[global] Instance endpoint_eq_dec : EqDecision endpoint.
Proof. solve_decision. Defined.

Record route : Type := Route {
  verb : method;
  path : list segment;
  target : endpoint
}.

(** The routers exported by the four files of [routes/]. *)
Definition createEmployeeRoute : list route :=
  [ Route POST [] CreateEmployee ].

Definition readEmployeeRoute : list route :=
  [ Route GET [] ReadEmployees;
    Route GET [Param "employee_id"] ReadEmployee ].

Definition updateEmployeeRoute : list route :=
  [ Route PUT [Param "employee_id"] UpdateEmployee ].

Definition deleteEmployeeRoute : list route :=
  [ Route DELETE [Param "employee_id"] DeleteEmployee ].

(** What [app.js] registers, in order: [app.use(express.json())],
    [app.use(prefix, router)] and [app.get(path, handler)]. *)
Inductive layer : Type :=
| use_json
| use (prefix : list string) (router : list route)
| get_ (p : list segment) (h : endpoint).

Definition app : list layer :=
  [ use_json;
    use ["api"; "employees"] createEmployeeRoute;
    use ["api"; "employees"] readEmployeeRoute;
    use ["api"; "employees"] readEmployeeRoute;
    use ["api"; "employees"] readEmployeeRoute;
    use ["api"; "employees"] updateEmployeeRoute;
    use ["api"; "employees"] deleteEmployeeRoute;
    get_ [] Root;
    get_ [Lit "health"] Health;
    get_ [Lit "health"] Health ].

(** The routes of a layer, with the mount prefix put in front. *)
Definition layer_routes (l : layer) : list route :=
  match l with
  | use_json => []
  | use prefix router =>
      map (fun r => Route (verb r) (map Lit prefix ++ path r) (target r)) router
  | get_ p h => [ Route GET p h ]
  end.

Definition routes (a : list layer) : list route :=
  concat (map layer_routes a).

(** A request path, split at [/], against a route path.  The segments
    are taken as Express compares them: in lower case, none empty. *)
Fixpoint matches (p : list segment) (url : list string) : bool :=
  match p, url with
  | [], [] => true
  | Lit s :: p', x :: url' => String.eqb s x && matches p' url'
  | Param _ :: p', _ :: url' => matches p' url'
  | _, _ => false
  end.

Definition serves (r : route) (m : method) (url : list string) : bool :=
  bool_decide (verb r = m) && matches (path r) url.

(** The first registered route that matches answers the request (every
    handler of the application responds without calling [next]). *)
Definition dispatch (a : list layer) (m : method) (url : list string)
  : option endpoint :=
  target <$> List.find (fun r => serves r m url) (routes a).

(** The five employee handlers, by endpoint. *)
Definition handler (e : endpoint) : option (request -> prog response) :=
  match e with
  | CreateEmployee => Some createEmployee
  | ReadEmployees => Some readEmployees
  | ReadEmployee => Some readEmployee
  | UpdateEmployee => Some updateEmployee
  | DeleteEmployee => Some deleteEmployee
  | Root | Health => None
  end.

End App.

(* ===================================================================== *)
(** ** Observations of a run *)
(* ===================================================================== *)

Module Observe.
Import Employee Async Routes App.

Section Observe.
Variable convert : SchemaTypeName -> jsval -> option jsval.

(** What the handler sent (or the error that escaped it). *)
Definition answer {R : Type} (p : prog R) (c : collection) : outcome R :=
  (run convert p c).1.1.

(** The collection once the handler is done. *)
Definition after {R : Type} (p : prog R) (c : collection) : collection :=
  (run convert p c).1.2.

(** The driver calls of the run, in order. *)
Definition calls {R : Type} (p : prog R) (c : collection) : list event :=
  (run convert p c).2.

End Observe.

(** The fields whose presence each handler checks. *)
Definition create_fields : list string :=
  ["employee_id"; "name"; "email"; "job_title"; "age"; "date_hired"].

Definition update_fields : list string :=
  ["name"; "email"; "job_title"; "age"; "date_hired"].

(** The ends a body can come to, whatever the driver answers to its
    calls. *)
Fixpoint ends {R : Type} (p : prog R) (x : outcome R) : Prop :=
  match p with
  | Return r => x = Resolved r
  | Throw e => x = Rejected e
  | Await q k => exists o, ends (k o) x
  end.

(** The status codes of the REST conventions the routes follow. *)
Definition rest_status (code : nat) : Prop :=
  code = 200%nat \/ code = 201%nat \/ code = 400%nat \/ code = 404%nat.

(** A method and a route path. *)
Definition endpoint_path : Type := method * list segment.

(** The application answers exactly the requests that match one of
    [paths]. *)
Definition exposes (a : list layer) (paths : list endpoint_path) : Prop :=
  forall m url,
    is_Some (dispatch a m url) <->
    exists r, r ∈ paths /\ r.1 = m /\ matches r.2 url = true.

(** The five employee routes, and the two health checks of [app.js]. *)
Definition employee_routes : list endpoint_path :=
  [ (POST, [Lit "api"; Lit "employees"]);
    (GET, [Lit "api"; Lit "employees"]);
    (GET, [Lit "api"; Lit "employees"; Param "employee_id"]);
    (PUT, [Lit "api"; Lit "employees"; Param "employee_id"]);
    (DELETE, [Lit "api"; Lit "employees"; Param "employee_id"]) ].

Definition health_routes : list endpoint_path :=
  [ (GET, []); (GET, [Lit "health"]) ].

(** The document [new Employee({ ... })] builds from a request body. *)
Definition new_employee (o : gmap string jsval) : document :=
  Document (get o "employee_id") (get o "name") (get o "email")
    (get o "job_title") (get o "age") (get o "date_hired").

(** The update object the PUT handler builds from a request body. *)
Definition update_of (o : gmap string jsval) : update :=
  Update (get o "name") (get o "email") (get o "job_title")
    (get o "age") (get o "date_hired").

(** The document [d] with its five written paths set to those of [u]. *)
Definition rewritten (d : document) (u : update) : document :=
  Document (employee_id d) (set_name u) (set_email u) (set_job_title u)
    (set_age u) (set_date_hired u).

(** The update that turns a document's five written paths into those of
    [d]. *)
Definition apply_update_of (d : document) : update :=
  Update (name d) (email d) (job_title d) (age d) (date_hired d).

(** The keys a unique index on path [p] holds for a collection. *)
Definition index_keys (p : string) (c : collection) : list jsval :=
  map (fun d => index_key (get_path d p)) c.

(** The unique indexes of the schema hold: no two documents share a key
    on a path that carries [unique: true]. *)
Definition unique_index (c : collection) : Prop :=
  forall p, p ∈ unique_paths employeeSchema -> NoDup (index_keys p c).

(** The values [!x] holds for. *)
Definition falsy_values : list jsval :=
  [JUndefined; JNull; JBool false; JNum 0; JStr ""].

(** The request with field [f] taken out of its body. *)
Definition without (f : string) (req : request) : request :=
  Request (params_employee_id req) (delete f <$> body req).

Definition bad_request : response :=
  status_json 400 (message "All fields are required.").

End Observe.

(* ===================================================================== *)
(** ** Sample data *)
(* ===================================================================== *)

Module Sample.
Import Employee Async Routes.

(** A conversion that only knows the date of the README's sample
    document, 2024-07-03, as milliseconds since the epoch. *)
Definition convert (t : SchemaTypeName) (v : jsval) : option jsval :=
  match t, v with
  | SchemaDate, JStr "2024-07-03" => Some (JDate 1719964800000)
  | _, _ => None
  end.

Definition alex_body : gmap string jsval :=
  {[ "employee_id" := JStr "emp123";
     "name" := JStr "Alex Chow";
     "email" := JStr "alex@college.com";
     "job_title" := JStr "Software Developer";
     "age" := JNum 58;
     "date_hired" := JStr "2024-07-03" ]}.

Definition alex : document :=
  {| employee_id := JStr "emp123";
     name := JStr "Alex Chow";
     email := JStr "alex@college.com";
     job_title := JStr "Software Developer";
     age := JNum 58;
     date_hired := JDate 1719964800000 |}.

Definition sam : document :=
  {| employee_id := JStr "emp456";
     name := JStr "Sam Lee";
     email := JStr "sam@college.com";
     job_title := JStr "HR";
     age := JNum 41;
     date_hired := JDate 1719964800000 |}.

(** PUT bodies for [sam]: a promotion; the same with [age: 0]; the same
    with the email of [alex]. *)
Definition promotion_body : gmap string jsval :=
  {[ "name" := JStr "Sam Lee";
     "email" := JStr "sam@college.com";
     "job_title" := JStr "Product Manager";
     "age" := JNum 42;
     "date_hired" := JStr "2024-07-03" ]}.

(** The body of [alex] with an empty email. *)
Definition blank_email_body : gmap string jsval :=
  <[ "email" := JStr "" ]> alex_body.

Definition zero_age_body : gmap string jsval :=
  <[ "age" := JNum 0 ]> promotion_body.

Definition taken_email_body : gmap string jsval :=
  <[ "email" := JStr "alex@college.com" ]> promotion_body.

(** A PUT body for [sam] that no validator of the schema would let
    through: a two-letter name, no [@] in the email, a job title outside
    the enum, an age under 19. *)
Definition unchecked_body : gmap string jsval :=
  {[ "name" := JStr "Sa";
     "email" := JStr "sam";
     "job_title" := JStr "Intern";
     "age" := JNum 5;
     "date_hired" := JStr "2024-07-03" ]}.

Definition sam_promoted : document :=
  {| employee_id := JStr "emp456";
     name := JStr "Sam Lee";
     email := JStr "sam@college.com";
     job_title := JStr "Product Manager";
     age := JNum 42;
     date_hired := JDate 1719964800000 |}.

End Sample.

(* ===================================================================== *)
(** ** Any driver *)
(* ===================================================================== *)

Module AnyDriver.
Import Employee Async Routes.

Section AnyDriver.
Context {S : Type}.

(** A driver over some store [S]: an outcome and a new store for every
    call, with no assumption on what it does. *)
Variable driver : forall A : Type, query A -> S -> outcome A * S.

Fixpoint run_on {R : Type} (p : prog R) (s : S) : outcome R * S :=
  match p with
  | Return r => (Resolved r, s)
  | Throw e => (Rejected e, s)
  | Await q k => let '(o, s') := driver _ q s in run_on (k o) s'
  end.

End AnyDriver.

(** A driver that has lost its connection: every call is rejected. *)
Definition down (A : Type) (q : query A) (s : unit) : outcome A * unit :=
  (Rejected "connection lost", s).

(** How a handler run relates to the one driver call it makes. *)
Definition one_call {S : Type}
    (driver : forall A : Type, query A -> S -> outcome A * S)
    (s : S) (x : outcome response) (s' : S) : Prop :=
  exists (A : Type) (q : query A) (o : outcome A),
    driver A q s = (o, s')
    /\ match o with
       | Rejected err => x = Resolved (status_json 400 (message err))
       | Resolved _ =>
           exists r, x = Resolved r
                     /\ (status r = 200%nat \/ status r = 201%nat
                         \/ status r = 404%nat)
       end.

End AnyDriver.

(* ===================================================================== *)
(** ** The application as a whole *)
(* ===================================================================== *)

Module Server.
Import Employee Async Routes App.

(** The route that answers a request: the first that matches. *)
Definition route_of (a : list layer) (m : method) (url : list string)
  : option route :=
  List.find (fun r => serves r m url) (routes a).

(** [req.params]: the segments of the URL bound by the parameters of the
    route path. *)
Fixpoint bind_params (p : list segment) (url : list string) : gmap string string :=
  match p, url with
  | Lit _ :: p', _ :: url' => bind_params p' url'
  | Param x :: p', v :: url' => <[x := v]> (bind_params p' url')
  | _, _ => ∅
  end.

(** What [express.json()], the first layer of the application, makes of
    a request: it refuses it with a status of its own (a body that is too
    large, of an unsupported encoding, or not JSON) and the request
    reaches no route, or it passes it on with [req.body] set to the
    parsed object or left unset. *)
Inductive parsing : Type :=
| Refused (code : nat)
| Passed (b : option (gmap string jsval)).

(** What the application sends: the refusal of the parser, the JSON of an
    employee route, the text of [GET /], the report of [GET /health];
    [Unrouted] when no route matches and the request is left to
    Express. *)
Inductive reply : Type :=
| ParserError (code : nat)
| Json (r : response)
| Text (code : nat) (text : string)
| HealthReport (code : nat) (state : string) (timestamp : Z)
| Uncaught (error : string)
| Unrouted.


Record http_request : Type := HttpRequest {
  http_method : method;
  http_url : list string;
  http_parsing : parsing
}.

(** What [serve] makes of a handler run. *)
Definition sent (x : outcome response * collection * list event)
  : reply * collection :=
  (match x.1.1 with
   | Resolved res => Json res
   | Rejected e => Uncaught e
   end, x.1.2).

Section Serve.
Variable convert : SchemaTypeName -> jsval -> option jsval.

(** A request the parser passed on, with [req.body] as [b], against the
    routes. *)
Definition routed (now : Z) (m : method) (url : list string)
    (b : option (gmap string jsval)) (c : collection) : reply * collection :=
  match route_of app m url with
  | None => (Unrouted, c)
  | Some r =>
      match target r with
      | Root => (Text 200 "MongoDB, Express, and Node.js are working!", c)
      | Health => (HealthReport 200 "Healthy" now, c)
      | e =>
          match handler e with
          | None => (Unrouted, c)
          | Some h =>
              let req :=
                Request (default "" (bind_params (path r) url
                                       !! "employee_id")) b in
              let '(o, c', _) := run convert (h req) c in
              (match o with
               | Resolved res => Json res
               | Rejected e => Uncaught e
               end, c')
          end
      end
  end.

(** One request against the application, at time [now]: the parser
    first, then the routes. *)
Definition serve (now : Z) (rq : http_request) (c : collection)
  : reply * collection :=
  match http_parsing rq with
  | Refused code => (ParserError code, c)
  | Passed b => routed now (http_method rq) (http_url rq) b c
  end.

(** A sequence of requests, each at its time. *)
Fixpoint browse (rqs : list (Z * http_request)) (c : collection) : collection :=
  match rqs with
  | [] => c
  | (now, rq) :: rest => browse rest (serve now rq c).2
  end.

End Serve.

(** [app.js] with every router mounted once and [/health] registered
    once. *)
Definition app_once : list layer :=
  [ use_json;
    use ["api"; "employees"] createEmployeeRoute;
    use ["api"; "employees"] readEmployeeRoute;
    use ["api"; "employees"] updateEmployeeRoute;
    use ["api"; "employees"] deleteEmployeeRoute;
    get_ [] Root;
    get_ [Lit "health"] Health ].

End Server.

(* ===================================================================== *)
(** ** What the schema asks of a document *)
(* ===================================================================== *)

Module Constraints.
Import Employee.

Fixpoint all_nonspace (s : string) : bool :=
  match s with
  | EmptyString => true
  | String c rest => negb (is_space c) && all_nonspace rest
  end.

(** The strings in which [\S+@\S+\.\S+] occurs, said without a search:
    somewhere in [s] stand three non-empty runs of non-space characters,
    the first two separated by [@] and the last two by a dot. *)
Definition email_shape (s : string) : Prop :=
  exists pre a b c post,
    s = pre +:+ a +:+ "@" +:+ b +:+ "." +:+ c +:+ post
    /\ a <> "" /\ b <> "" /\ c <> ""
    /\ all_nonspace a = true /\ all_nonspace b = true /\ all_nonspace c = true.

(** A document as the validators of [employeeSchema] let it through. *)
Definition valid_employee (d : document) : Prop :=
  exists id nm em jt n ms,
    d = Document (JStr id) (JStr nm) (JStr em) (JStr jt) (JNum n) (JDate ms)
    /\ id <> ""
    /\ (3 <= String.length nm)%nat
    /\ (em = "" \/ email_regex em = true)
    /\ jt ∈ ["Software Developer"; "Product Manager"; "Graphic Designer"; "HR"]
    /\ 19 <= n <= 120.

End Constraints.

Import Employee Async Routes App Observe.

(** Case analysis on a membership in a list written out element by
    element. *)
Ltac each_of H :=
  rewrite ?elem_of_app, !elem_of_cons, ?elem_of_nil in H;
  destruct_or!; subst; try done.

(* ===================================================================== *)
(** ** Sanity checks of the model *)
(* ===================================================================== *)

Example truthy_values :
  map truthy [JUndefined; JNull; JBool false; JNum 0; JStr "";
              JBool true; JNum 19; JStr "0"; JObj]
  = [false; false; false; false; false; true; true; true; true].
Proof. reflexivity. Qed.

Example email_regex_values :
  map email_regex ["alex@college.com"; "a@b.c"; "see x@y.zz here";
                   "alex"; "alex@college"; "@college.com"; "alex@.com";
                   "alex@college."; "alex @college.com"; "a@b .c"]
  = [true; true; true; false; false; false; false; false; false; false].
Proof. reflexivity. Qed.

Example validate_sample :
  validate Sample.alex = None
  /\ validate (apply_update (Update (JStr "Al") (email Sample.alex)
                               (job_title Sample.alex) (age Sample.alex)
                               (date_hired Sample.alex)) Sample.alex)
     = Some "Employee Name must be at least 3 characters long"
  /\ validate (apply_update (Update (name Sample.alex) (JStr "alex")
                               (job_title Sample.alex) (age Sample.alex)
                               (date_hired Sample.alex)) Sample.alex)
     = Some "Please use a valid email address"
  /\ validate (apply_update (Update (name Sample.alex) (email Sample.alex)
                               (JStr "Instructor") (age Sample.alex)
                               (date_hired Sample.alex)) Sample.alex)
     = Some "`Instructor` is not a valid enum value"
  /\ validate (apply_update (Update (name Sample.alex) (email Sample.alex)
                               (job_title Sample.alex) (JNum 18)
                               (date_hired Sample.alex)) Sample.alex)
     = Some "Employees age must be at least 18 or above"
  /\ validate (apply_update (Update (name Sample.alex) (email Sample.alex)
                               (job_title Sample.alex) (JNum 121)
                               (date_hired Sample.alex)) Sample.alex)
     = Some "Employee age must be below 120!"
  /\ validate (apply_update (Update (name Sample.alex) (email Sample.alex)
                               (job_title Sample.alex) (age Sample.alex)
                               JNull) Sample.alex)
     = Some "Path `date_hired` is required.".
Proof. repeat split; reflexivity. Qed.

Example save_sample :
  exec Sample.convert (save (new_employee Sample.alex_body)) []
    = (Resolved Sample.alex, [Sample.alex])
  /\ exec Sample.convert (save (new_employee Sample.alex_body)) [Sample.alex]
     = (Rejected "E11000 duplicate key error collection: employees index: employee_id_1",
        [Sample.alex]).
Proof. split; reflexivity. Qed.

(* ===================================================================== *)
(** ** The driver calls *)
(* ===================================================================== *)

Lemma split_first_Some f c before d rest :
  split_first f c = Some (before, d, rest) ->
  c = before ++ d :: rest /\ f d = true /\ Forall (fun x => f x = false) before.
Proof.
  revert before d rest.
  induction c as [|x c IH]; intros before d rest; simpl; [discriminate|].
  destruct (f x) eqn:Hx.
  - intros [= <- <- <-]. auto.
  - destruct (split_first f c) as [[[b y] r]|]; [|discriminate].
    intros [= <- <- <-].
    destruct (IH b y r eq_refl) as (-> & Hy & Hb). auto.
Qed.

Lemma split_first_None f c :
  split_first f c = None -> Forall (fun x => f x = false) c.
Proof.
  induction c as [|x c IH]; simpl; [constructor|].
  destruct (f x) eqn:Hx; [discriminate|].
  destruct (split_first f c) as [[[b y] r]|]; [discriminate|].
  intros _. constructor; auto.
Qed.

Lemma split_first_app f before d rest :
  Forall (fun x => f x = false) before -> f d = true ->
  split_first f (before ++ d :: rest) = Some (before, d, rest).
Proof.
  induction 1 as [|x b Hx _ IH]; intros Hd; simpl.
  - by rewrite Hd.
  - by rewrite Hx, (IH Hd).
Qed.

Lemma split_first_absent f c :
  Forall (fun x => f x = false) c -> split_first f c = None.
Proof.
  induction 1 as [|x c Hx _ IH]; simpl; [done|]. by rewrite Hx, IH.
Qed.

Lemma has_employee_id_true k d :
  has_employee_id k d = true <-> employee_id d = JStr k.
Proof. unfold has_employee_id. by rewrite bool_decide_eq_true. Qed.

Lemma has_employee_id_false k d :
  has_employee_id k d = false <-> employee_id d <> JStr k.
Proof. unfold has_employee_id. by rewrite bool_decide_eq_false. Qed.

Lemma absent_Forall k (c : collection) :
  (forall x, x ∈ c -> employee_id x <> JStr k) <->
  Forall (fun x => has_employee_id k x = false) c.
Proof.
  rewrite Forall_forall.
  split; intros H x Hx; apply has_employee_id_false; auto.
Qed.

(* ===================================================================== *)
(** ** POST /api/employees *)
(* ===================================================================== *)

Section Create.
Variable convert : SchemaTypeName -> jsval -> option jsval.

Lemma createEmployee_unparsed req c :
  body req = None ->
  run convert (createEmployee req) c
  = (Resolved (status_json 400 (message (cannot_destructure "employee_id"))),
     c, []).
Proof. intros Hb. unfold createEmployee. by rewrite Hb. Qed.

Lemma createEmployee_falsy req o c f :
  body req = Some o ->
  f ∈ create_fields -> truthy (get o f) = false ->
  run convert (createEmployee req) c = (Resolved bad_request, c, []).
Proof.
  intros Hb Hf Hv. unfold createEmployee, create_fields in *. rewrite Hb.
  assert (JS.not (get o f) = true) as Hn by (unfold JS.not; by rewrite Hv).
  each_of Hf; rewrite Hn, ?orb_true_r; reflexivity.
Qed.

Lemma createEmployee_truthy req o c :
  body req = Some o ->
  (forall f, f ∈ create_fields -> truthy (get o f) = true) ->
  run convert (createEmployee req) c =
    (match (exec convert (save (new_employee o)) c).1 with
     | Resolved d => Resolved (status_json 201 (employee d))
     | Rejected e => Resolved (status_json 400 (message e))
     end,
     (exec convert (save (new_employee o)) c).2,
     [Called (save (new_employee o))
        (exec convert (save (new_employee o)) c).1]).
Proof.
  intros Hb H. unfold createEmployee, JS.not. rewrite Hb.
  rewrite !H by (unfold create_fields; set_solver).
  cbn [negb orb]. cbn -[exec]. fold (new_employee o).
  destruct (exec convert _ c) as [[d|e] c']; reflexivity.
Qed.

Lemma exec_save_resolved doc c d c' :
  exec convert (save doc) c = (Resolved d, c') ->
  c' = c ++ [d] /\ cast_document convert doc = Some d.
Proof.
  unfold exec. destruct (cast_document convert doc) as [d0|]; [|discriminate].
  destruct (validate d0); [discriminate|].
  destruct (duplicate_key (unique_paths employeeSchema) c d0); [discriminate|].
  by intros [= <- <-].
Qed.

Lemma falsy_field_dec (fields : list string) (o : gmap string jsval) :
  (exists f, f ∈ fields /\ truthy (get o f) = false)
  \/ (forall f, f ∈ fields -> truthy (get o f) = true).
Proof.
  induction fields as [|f fields [(g & Hg & Hv)|IH]].
  - right. intros f Hf. by apply elem_of_nil in Hf.
  - left. exists g. split; [by right|done].
  - destruct (truthy (get o f)) eqn:Hf.
    + right. intros g [->|Hg]%elem_of_cons; auto.
    + left. exists f. split; [by left|done].
Qed.

(** C1, amended.  A POST whose parsed body has one of the six fields
    missing or falsy is answered 400 'All fields are required.' and leaves
    the collection as it was.  A POST whose six fields are all truthy, and
    for which the save of the document built from them resolves, is
    answered 201 with the saved document, which is then the last of the
    collection.  A POST with no parsed body is answered 400 with the
    message of the TypeError and leaves the collection as it was. *)
Theorem createEmployee_spec req c :
  (forall o, body req = Some o ->
     ((exists f, f ∈ create_fields /\ truthy (get o f) = false) ->
        answer convert (createEmployee req) c = Resolved bad_request
        /\ after convert (createEmployee req) c = c)
     /\
     ((forall f, f ∈ create_fields -> truthy (get o f) = true) ->
        forall d c',
          exec convert (save (new_employee o)) c = (Resolved d, c') ->
          answer convert (createEmployee req) c
            = Resolved (status_json 201 (employee d))
          /\ after convert (createEmployee req) c = c ++ [d]))
  /\
  (body req = None ->
     answer convert (createEmployee req) c
       = Resolved (status_json 400
           (message (cannot_destructure "employee_id")))
     /\ after convert (createEmployee req) c = c).
Proof.
  unfold answer, after. split; [intros o Hb; split|].
  - intros (f & Hf & Hv).
    by rewrite (createEmployee_falsy req o c f Hb Hf Hv).
  - intros Hall d c' He.
    rewrite (createEmployee_truthy req o c Hb Hall), He. cbn [fst snd].
    by destruct (exec_save_resolved _ _ _ _ He) as [-> _].
  - intros Hb. by rewrite (createEmployee_unparsed req c Hb).
Qed.

End Create.

(** C1, amended, at work: an empty body, the body of [alex] on an empty
    collection, and no body at all. *)
Lemma createEmployee_spec_witness :
  (answer Sample.convert (createEmployee (Request "" (Some ∅))) []
     = Resolved bad_request
   /\ after Sample.convert (createEmployee (Request "" (Some ∅))) [] = [])
  /\
  (answer Sample.convert (createEmployee (Request "" (Some Sample.alex_body))) []
     = Resolved (status_json 201 (employee Sample.alex))
   /\ after Sample.convert
        (createEmployee (Request "" (Some Sample.alex_body))) []
     = [] ++ [Sample.alex])
  /\
  (answer Sample.convert (createEmployee (Request "" None)) []
     = Resolved (status_json 400
         (message (cannot_destructure "employee_id")))
   /\ after Sample.convert (createEmployee (Request "" None)) [] = []).
Proof.
  split; [|split].
  - apply (proj1 (proj1 (createEmployee_spec Sample.convert
                           (Request "" (Some ∅)) []) ∅ eq_refl)).
    exists "name". split; [|reflexivity].
    unfold create_fields. apply list_elem_of_further, list_elem_of_here.
  - apply (proj2 (proj1 (createEmployee_spec Sample.convert
                           (Request "" (Some Sample.alex_body)) [])
                    Sample.alex_body eq_refl)) with (c' := [Sample.alex]).
    + intros f Hf. unfold create_fields in Hf.
      each_of Hf; vm_compute; reflexivity.
    + vm_compute. reflexivity.
  - apply (proj2 (createEmployee_spec Sample.convert (Request "" None) [])).
    reflexivity.
Defined.

(** C1 as stated fails.  The first body names all six fields and the save
    of the document built from it resolves, yet the answer is 400 and
    nothing is saved, because [email] is the empty string.  The second
    request has no parsed body: every field is missing, yet the message of
    the 400 is not 'All fields are required.'. *)
Lemma createEmployee_present_counterexample :
  ((forall f, f ∈ create_fields -> is_Some (Sample.blank_email_body !! f))
   /\ (exists d c',
         exec Sample.convert (save (new_employee Sample.blank_email_body)) []
         = (Resolved d, c'))
   /\ run Sample.convert
        (createEmployee (Request "" (Some Sample.blank_email_body))) []
      = (Resolved (status_json 400 (message "All fields are required.")),
         [], []))
  /\
  (answer Sample.convert (createEmployee (Request "" None)) []
   <> Resolved (status_json 400 (message "All fields are required."))).
Proof.
  split; [split; [|split]|].
  - intros f Hf. unfold create_fields in Hf. each_of Hf; by eexists.
  - eexists _, _. vm_compute. reflexivity.
  - reflexivity.
  - vm_compute. discriminate.
Qed.

(* ===================================================================== *)
(** ** PUT /api/employees/:employee_id *)
(* ===================================================================== *)

Section Update.
Variable convert : SchemaTypeName -> jsval -> option jsval.

Lemma update_index_paths :
  List.filter (fun p => bool_decide (p ∈ updated_paths))
    (unique_paths employeeSchema) = ["email"].
Proof. reflexivity. Qed.

Lemma duplicate_email (others : collection) d :
  duplicate_key ["email"] others d = None <->
  (forall x, x ∈ others -> index_key (email x) <> index_key (email d)).
Proof.
  cbn [duplicate_key].
  change (get_path d "email") with (email d).
  destruct (existsb _ others) eqn:E.
  - split; [discriminate|]. intros H.
    apply existsb_exists in E as (x & Hx & Hk).
    apply bool_decide_eq_true in Hk.
    destruct (H x); [by apply list_elem_of_In|done].
  - split; [|done]. intros _ x Hx Hk.
    assert (existsb (fun o => bool_decide
              (index_key (get_path o "email") = index_key (email d))) others = true)
      as E'; [|congruence].
    apply existsb_exists. exists x. split; [by apply list_elem_of_In|].
    by apply bool_decide_eq_true.
Qed.

Lemma exec_update_inv k u c o c' :
  exec convert (findOneAndUpdate k u) c = (o, c') ->
  match o with
  | Rejected _ => c' = c
  | Resolved None =>
      c' = c /\ (forall x, x ∈ c -> employee_id x <> JStr k)
      /\ is_Some (cast_update convert u)
  | Resolved (Some d') =>
      exists u' before d rest,
        cast_update convert u = Some u'
        /\ c = before ++ d :: rest
        /\ employee_id d = JStr k
        /\ (forall x, x ∈ before -> employee_id x <> JStr k)
        /\ (forall x, x ∈ before ++ rest ->
              index_key (email x) <> index_key (email (apply_update u' d)))
        /\ d' = apply_update u' d
        /\ c' = before ++ d' :: rest
  end.
Proof.
  unfold exec. rewrite update_index_paths.
  destruct (cast_update convert u) as [u'|]; [|by intros [= <- <-]].
  destruct (split_first (has_employee_id k) c) as [[[before d] rest]|] eqn:Hs.
  - apply split_first_Some in Hs as (-> & Hd & Hb).
    destruct (duplicate_key ["email"] (before ++ rest) (apply_update u' d))
      as [e|] eqn:Hdup; intros [= <- <-]; [done|].
    exists u', before, d, rest. repeat split; try done.
    + by apply has_employee_id_true.
    + by apply absent_Forall.
    + exact (proj1 (duplicate_email _ _) Hdup).
  - apply split_first_None in Hs. intros [= <- <-].
    repeat split; [by apply absent_Forall|by eexists].
Qed.

Lemma exec_update_found k u u' before d rest :
  cast_update convert u = Some u' ->
  employee_id d = JStr k ->
  (forall x, x ∈ before -> employee_id x <> JStr k) ->
  (forall x, x ∈ before ++ rest ->
     index_key (email x) <> index_key (email (apply_update u' d))) ->
  exec convert (findOneAndUpdate k u) (before ++ d :: rest)
    = (Resolved (Some (apply_update u' d)), before ++ apply_update u' d :: rest).
Proof.
  intros Hu Hd Hb He. unfold exec. rewrite update_index_paths, Hu.
  rewrite (split_first_app _ before d rest);
    [|by apply absent_Forall|by apply has_employee_id_true].
  by rewrite (proj2 (duplicate_email _ (apply_update u' d)) He).
Qed.

Lemma exec_update_absent k u c :
  is_Some (cast_update convert u) ->
  (forall x, x ∈ c -> employee_id x <> JStr k) ->
  exec convert (findOneAndUpdate k u) c = (Resolved None, c).
Proof.
  intros [u' Hu] Hc. unfold exec. rewrite Hu.
  by rewrite split_first_absent by (by apply absent_Forall).
Qed.

Lemma cast_truthy t v v' :
  truthy v = true -> cast convert t v = Some v' -> is_type t v' = true.
Proof.
  unfold cast. intros Hv.
  destruct (is_type t v) eqn:Ht.
  - destruct v; try discriminate; by intros [= <-].
  - destruct (convert t v) as [w|]; [|by destruct v].
    destruct (is_type t w) eqn:Hw; [|by destruct v].
    destruct v; try discriminate; by intros [= <-].
Qed.

Lemma assign_typed t v old : is_type t v = true -> assign v old = v.
Proof. by destruct t, v. Qed.

Lemma cast_path_truthy p v v' :
  truthy v = true -> cast_path convert p v = Some v' ->
  forall old, assign v' old = v'.
Proof.
  unfold cast_path. destruct (schema_path p) as [t|]; [|discriminate].
  intros Hv Hc old. eapply assign_typed, cast_truthy; eauto.
Qed.

(** On truthy values the update sets all five paths. *)
Lemma apply_update_truthy o u' d :
  (forall f, f ∈ update_fields -> truthy (get o f) = true) ->
  cast_update convert (update_of o) = Some u' ->
  apply_update u' d = rewritten d u'.
Proof.
  intros Hall. unfold cast_update, update_of. cbn [set_name set_email
    set_job_title set_age set_date_hired].
  destruct (cast_path convert "name" _) as [v1|] eqn:H1; [|discriminate].
  destruct (cast_path convert "email" _) as [v2|] eqn:H2; [|discriminate].
  destruct (cast_path convert "job_title" _) as [v3|] eqn:H3; [|discriminate].
  destruct (cast_path convert "age" _) as [v4|] eqn:H4; [|discriminate].
  destruct (cast_path convert "date_hired" _) as [v5|] eqn:H5; [|discriminate].
  intros [= <-]. unfold apply_update, rewritten.
  cbn [set_name set_email set_job_title set_age set_date_hired].
  rewrite (cast_path_truthy _ _ _ (Hall "name" ltac:(set_solver)) H1),
    (cast_path_truthy _ _ _ (Hall "email" ltac:(set_solver)) H2),
    (cast_path_truthy _ _ _ (Hall "job_title" ltac:(set_solver)) H3),
    (cast_path_truthy _ _ _ (Hall "age" ltac:(set_solver)) H4),
    (cast_path_truthy _ _ _ (Hall "date_hired" ltac:(set_solver)) H5).
  done.
Qed.

Lemma updateEmployee_unparsed req c :
  body req = None ->
  run convert (updateEmployee req) c
  = (Resolved (status_json 400 (message (cannot_destructure "name"))), c, []).
Proof. intros Hb. unfold updateEmployee. by rewrite Hb. Qed.

Lemma updateEmployee_falsy req o c f :
  body req = Some o ->
  f ∈ update_fields -> truthy (get o f) = false ->
  run convert (updateEmployee req) c = (Resolved bad_request, c, []).
Proof.
  intros Hb Hf Hv. unfold updateEmployee, update_fields in *. rewrite Hb.
  assert (JS.not (get o f) = true) as Hn by (unfold JS.not; by rewrite Hv).
  each_of Hf; rewrite Hn, ?orb_true_r; reflexivity.
Qed.

Lemma updateEmployee_truthy req o c :
  body req = Some o ->
  (forall f, f ∈ update_fields -> truthy (get o f) = true) ->
  let k := params_employee_id req in
  let q := findOneAndUpdate k (update_of o) in
  run convert (updateEmployee req) c =
    (match (exec convert q c).1 with
     | Resolved (Some d) => Resolved (status_json 200 (employee d))
     | Resolved None =>
         Resolved (status_json 404
                     (message ("Employee with employee_id " +:+ k +:+ " not found")))
     | Rejected e => Resolved (status_json 400 (message e))
     end,
     (exec convert q c).2,
     [Called q (exec convert q c).1]).
Proof.
  intros Hb H k q. unfold updateEmployee, JS.not. rewrite Hb.
  rewrite !H by (unfold update_fields; set_solver).
  cbn [negb orb]. cbn -[exec]. fold k. fold (update_of o). fold q.
  destruct (exec convert q c) as [[[d|]|e] c']; reflexivity.
Qed.

(** C3, amended.  A PUT whose five body fields are all truthy, cast to
    the schema types and bring an email that no other document holds, sets
    the five fields of the first document whose employee_id is the URL
    parameter to the body values, as cast, and is answered 200 with the
    document after the update; when no document has that employee_id it is
    answered 404 and the collection is unchanged.  A PUT with a missing or
    falsy field among the five is answered 400 and the collection is
    unchanged: with the message 'All fields are required.' when its body
    was parsed, with the message of the TypeError of the destructuring
    when it was not. *)
Theorem updateEmployee_spec req c :
  let k := params_employee_id req in
  (forall o, body req = Some o ->
   (forall f, f ∈ update_fields -> truthy (get o f) = true) ->
   forall u', cast_update convert (update_of o) = Some u' ->
     (forall before d rest,
        c = before ++ d :: rest ->
        employee_id d = JStr k ->
        (forall x, x ∈ before -> employee_id x <> JStr k) ->
        (forall x, x ∈ before ++ rest ->
           index_key (email x) <> index_key (set_email u')) ->
        answer convert (updateEmployee req) c
          = Resolved (status_json 200 (employee (rewritten d u')))
        /\ after convert (updateEmployee req) c
          = before ++ rewritten d u' :: rest)
     /\
     ((forall x, x ∈ c -> employee_id x <> JStr k) ->
        answer convert (updateEmployee req) c
          = Resolved (status_json 404
              (message ("Employee with employee_id " +:+ k +:+ " not found")))
        /\ after convert (updateEmployee req) c = c))
  /\
  (forall o, body req = Some o ->
     (exists f, f ∈ update_fields /\ truthy (get o f) = false) ->
     answer convert (updateEmployee req) c = Resolved bad_request
     /\ after convert (updateEmployee req) c = c)
  /\
  (body req = None ->
     answer convert (updateEmployee req) c
       = Resolved (status_json 400 (message (cannot_destructure "name")))
     /\ after convert (updateEmployee req) c = c).
Proof.
  intros k. unfold answer, after. split; [|split].
  - intros o Hb Hall u' Hu. rewrite (updateEmployee_truthy req o c Hb Hall).
    fold k. split.
    + intros before d rest -> Hd Hbf He.
      rewrite (exec_update_found k _ u' before d rest Hu Hd Hbf);
        by rewrite (apply_update_truthy _ _ d Hall Hu).
    + intros Hc. by rewrite (exec_update_absent k _ c (mk_is_Some _ _ Hu) Hc).
  - intros o Hb (f & Hf & Hv).
    by rewrite (updateEmployee_falsy req o c f Hb Hf Hv).
  - intros Hb. by rewrite (updateEmployee_unparsed req c Hb).
Qed.

(** C9.  A PUT answered 200 changed one document, the first whose
    employee_id is the URL parameter; its employee_id is what it was, and
    the documents before and after it are what they were.  An employee_id
    in the body changes nothing of the run. *)
Theorem updateEmployee_frame req c d' :
  answer convert (updateEmployee req) c
    = Resolved (status_json 200 (employee d')) ->
  (exists before d rest,
     c = before ++ d :: rest
     /\ after convert (updateEmployee req) c = before ++ d' :: rest
     /\ employee_id d = JStr (params_employee_id req)
     /\ employee_id d' = employee_id d
     /\ (forall x, x ∈ before -> employee_id x <> JStr (params_employee_id req)))
  /\
  (forall v,
     run convert
       (updateEmployee (Request (params_employee_id req)
                          (<["employee_id" := v]> <$> body req))) c
     = run convert (updateEmployee req) c).
Proof.
  unfold answer, after. intros Hok. split.
  - destruct (body req) as [o|] eqn:Hb;
      [|by rewrite (updateEmployee_unparsed req c Hb) in Hok].
    destruct (falsy_field_dec update_fields o) as [(f & Hf & Hv)|Hall].
    + by rewrite (updateEmployee_falsy req o c f Hb Hf Hv) in Hok.
    + rewrite (updateEmployee_truthy req o c Hb Hall) in *. cbv zeta in *.
      destruct (exec convert _ c) as [x c'] eqn:He. cbn [fst snd] in *.
      apply exec_update_inv in He.
      destruct x as [[d0|]|e]; try discriminate.
      injection Hok as <-.
      destruct He as (u' & before & d & rest & _ & -> & Hd & Hbf & _ & -> & ->).
      exists before, d, rest. by repeat split.
  - intros v. unfold updateEmployee. cbn [body params_employee_id].
    destruct (body req) as [o|]; [|done]. cbn [fmap option_fmap option_map].
    unfold get. by rewrite !lookup_insert_ne.
Qed.

End Update.

(** C3, amended, at work: the promotion of [sam], the same for an unknown
    employee_id, an empty body, and no body at all. *)
Lemma updateEmployee_spec_witness :
  (answer Sample.convert
     (updateEmployee (Request "emp456" (Some Sample.promotion_body)))
     [Sample.alex; Sample.sam]
   = Resolved (status_json 200 (employee Sample.sam_promoted))
   /\ after Sample.convert
        (updateEmployee (Request "emp456" (Some Sample.promotion_body)))
        [Sample.alex; Sample.sam]
      = [Sample.alex; Sample.sam_promoted])
  /\
  (answer Sample.convert
     (updateEmployee (Request "emp999" (Some Sample.promotion_body)))
     [Sample.alex; Sample.sam]
   = Resolved (status_json 404
       (message "Employee with employee_id emp999 not found"))
   /\ after Sample.convert
        (updateEmployee (Request "emp999" (Some Sample.promotion_body)))
        [Sample.alex; Sample.sam]
      = [Sample.alex; Sample.sam])
  /\
  (answer Sample.convert (updateEmployee (Request "emp456" (Some ∅)))
     [Sample.alex; Sample.sam]
   = Resolved bad_request
   /\ after Sample.convert (updateEmployee (Request "emp456" (Some ∅)))
        [Sample.alex; Sample.sam]
      = [Sample.alex; Sample.sam])
  /\
  (answer Sample.convert (updateEmployee (Request "emp456" None))
     [Sample.alex; Sample.sam]
   = Resolved (status_json 400 (message (cannot_destructure "name")))
   /\ after Sample.convert (updateEmployee (Request "emp456" None))
        [Sample.alex; Sample.sam]
      = [Sample.alex; Sample.sam]).
Proof.
  assert (forall f, f ∈ update_fields ->
            truthy (get Sample.promotion_body f) = true) as Hall.
  { intros f Hf. unfold update_fields in Hf.
    each_of Hf; reflexivity. }
  split; [|split; [|split]].
  - apply (proj1 (proj1 (updateEmployee_spec Sample.convert
              (Request "emp456" (Some Sample.promotion_body))
              [Sample.alex; Sample.sam]) Sample.promotion_body eq_refl Hall
              (apply_update_of Sample.sam_promoted) eq_refl)
            [Sample.alex] Sample.sam [] eq_refl eq_refl).
    + intros x Hx. apply list_elem_of_singleton in Hx as ->. discriminate.
    + intros x Hx. apply list_elem_of_singleton in Hx as ->. discriminate.
  - apply (proj2 (proj1 (updateEmployee_spec Sample.convert
              (Request "emp999" (Some Sample.promotion_body))
              [Sample.alex; Sample.sam]) Sample.promotion_body eq_refl Hall
              (apply_update_of Sample.sam_promoted) eq_refl)).
    intros x Hx. each_of Hx; discriminate.
  - apply (proj1 (proj2 (updateEmployee_spec Sample.convert
              (Request "emp456" (Some ∅)) [Sample.alex; Sample.sam]))
             ∅ eq_refl).
    exists "name". split; [apply list_elem_of_here|reflexivity].
  - apply (proj2 (proj2 (updateEmployee_spec Sample.convert
              (Request "emp456" None) [Sample.alex; Sample.sam]))).
    reflexivity.
Defined.

(** C3 as stated fails.  The body of the first request names all five
    fields and [sam] has the employee_id of the URL, yet the answer is 400
    and [sam] is not updated, because [age] is 0.  The body of the second
    is truthy throughout, yet the answer is 400 again: the unique index on
    [email] refuses the email of [alex]. *)
Lemma updateEmployee_all_five_counterexample :
  ((forall f, f ∈ update_fields -> is_Some (Sample.zero_age_body !! f))
   /\ Sample.sam ∈ [Sample.alex; Sample.sam]
   /\ employee_id Sample.sam = JStr "emp456"
   /\ run Sample.convert
        (updateEmployee (Request "emp456" (Some Sample.zero_age_body)))
        [Sample.alex; Sample.sam]
      = (Resolved (status_json 400 (message "All fields are required.")),
         [Sample.alex; Sample.sam], []))
  /\
  ((forall f, f ∈ update_fields ->
      truthy (get Sample.taken_email_body f) = true)
   /\ status <$> outcome_value
         (answer Sample.convert
            (updateEmployee (Request "emp456" (Some Sample.taken_email_body)))
            [Sample.alex; Sample.sam])
      = Some 400%nat
   /\ after Sample.convert
        (updateEmployee (Request "emp456" (Some Sample.taken_email_body)))
        [Sample.alex; Sample.sam]
      = [Sample.alex; Sample.sam]).
Proof.
  split; [split; [|split; [|split]]|split; [|split]]; try reflexivity.
  - intros f Hf. unfold update_fields in Hf.
    each_of Hf; by eexists.
  - apply list_elem_of_further, list_elem_of_here.
  - intros f Hf. unfold update_fields in Hf.
    each_of Hf; reflexivity.
Qed.

(** C9 at work on the promotion of [sam]. *)
Lemma updateEmployee_frame_witness :
  (exists before d rest,
     [Sample.alex; Sample.sam] = before ++ d :: rest
     /\ after Sample.convert
          (updateEmployee (Request "emp456" (Some Sample.promotion_body)))
          [Sample.alex; Sample.sam]
        = before ++ Sample.sam_promoted :: rest
     /\ employee_id d = JStr "emp456"
     /\ employee_id Sample.sam_promoted = employee_id d
     /\ (forall x, x ∈ before -> employee_id x <> JStr "emp456"))
  /\
  (forall v,
     run Sample.convert
       (updateEmployee (Request "emp456" (Some (<["employee_id" := v]> Sample.promotion_body))))
       [Sample.alex; Sample.sam]
     = run Sample.convert
         (updateEmployee (Request "emp456" (Some Sample.promotion_body)))
         [Sample.alex; Sample.sam]).
Proof.
  apply (updateEmployee_frame Sample.convert
           (Request "emp456" (Some Sample.promotion_body))
           [Sample.alex; Sample.sam] Sample.sam_promoted).
  reflexivity.
Defined.

(* ===================================================================== *)
(** ** The presence checks and falsy values *)
(* ===================================================================== *)

Section Presence.
Variable convert : SchemaTypeName -> jsval -> option jsval.

(** C10.  A POST or PUT in which a checked field is present but is 0 or
    the empty string is answered 400 'All fields are required.', leaves the
    collection as it was and calls no driver method: the run is that of
    the same request without the field. *)
Theorem falsy_field_rejected req o c f v :
  body req = Some o ->
  o !! f = Some v ->
  v = JNum 0 \/ v = JStr "" ->
  (f ∈ create_fields ->
     run convert (createEmployee req) c = (Resolved bad_request, c, [])
     /\ run convert (createEmployee req) c
        = run convert (createEmployee (without f req)) c)
  /\
  (f ∈ update_fields ->
     run convert (updateEmployee req) c = (Resolved bad_request, c, [])
     /\ run convert (updateEmployee req) c
        = run convert (updateEmployee (without f req)) c).
Proof.
  intros Hb Hf Hv.
  assert (truthy (get o f) = false) as Hfalsy.
  { unfold get. rewrite Hf. by destruct Hv as [-> | ->]. }
  assert (body (without f req) = Some (delete f o)) as Hb'.
  { unfold without. cbn [body]. by rewrite Hb. }
  assert (truthy (get (delete f o) f) = false) as Hgone.
  { unfold get. by rewrite lookup_delete_eq. }
  split; intros Hin.
  - by rewrite (createEmployee_falsy convert req o c f Hb Hin Hfalsy),
         (createEmployee_falsy convert (without f req) _ c f Hb' Hin Hgone).
  - by rewrite (updateEmployee_falsy convert req o c f Hb Hin Hfalsy),
         (updateEmployee_falsy convert (without f req) _ c f Hb' Hin Hgone).
Qed.

End Presence.

(** C10 at work: [age: 0] in a POST, [name: ''] in a PUT. *)
Lemma falsy_field_rejected_witness :
  (run Sample.convert
     (createEmployee (Request "" (Some (<["age" := JNum 0]> Sample.alex_body)))) []
   = (Resolved bad_request, [], []))
  /\
  (run Sample.convert
     (updateEmployee (Request "emp456" (Some (<["name" := JStr ""]> Sample.promotion_body))))
     [Sample.alex; Sample.sam]
   = (Resolved bad_request, [Sample.alex; Sample.sam], [])).
Proof.
  split.
  - refine (proj1 (proj1 (falsy_field_rejected Sample.convert
             (Request "" (Some (<["age" := JNum 0]> Sample.alex_body)))
             (<["age" := JNum 0]> Sample.alex_body) []
             "age" (JNum 0) eq_refl _ _) _)).
    + vm_compute. reflexivity.
    + left. reflexivity.
    + unfold create_fields.
      do 4 apply list_elem_of_further. apply list_elem_of_here.
  - refine (proj1 (proj2 (falsy_field_rejected Sample.convert
             (Request "emp456" (Some (<["name" := JStr ""]> Sample.promotion_body)))
             (<["name" := JStr ""]> Sample.promotion_body)
             [Sample.alex; Sample.sam]
             "name" (JStr "") eq_refl _ _) _)).
    + vm_compute. reflexivity.
    + right. reflexivity.
    + apply list_elem_of_here.
Defined.

(* ===================================================================== *)
(** ** GET /api/employees and GET /api/employees/:employee_id *)
(* ===================================================================== *)

Lemma find_split_first f (c : collection) :
  List.find f c = (fun s => s.1.2) <$> split_first f c.
Proof.
  induction c as [|x c IH]; simpl; [done|].
  destruct (f x); [done|]. rewrite IH.
  by destruct (split_first f c) as [[[b y] r]|].
Qed.

Lemma split_first_present k (c : collection) :
  (exists x, x ∈ c /\ employee_id x = JStr k) ->
  exists before d rest,
    split_first (has_employee_id k) c = Some (before, d, rest)
    /\ c = before ++ d :: rest
    /\ employee_id d = JStr k
    /\ (forall x, x ∈ before -> employee_id x <> JStr k).
Proof.
  intros (x & Hx & Hk).
  destruct (split_first (has_employee_id k) c) as [[[before d] rest]|] eqn:Hs.
  - exists before, d, rest.
    apply split_first_Some in Hs as (-> & Hd & Hb).
    repeat split; [by apply has_employee_id_true|by apply absent_Forall].
  - apply split_first_None in Hs.
    by destruct (proj2 (absent_Forall k c) Hs x Hx).
Qed.

Section Read.
Variable convert : SchemaTypeName -> jsval -> option jsval.

(** C2, amended.  GET on the collection leaves it as it is; it is
    answered 200 with all its documents, in order, when there is at least
    one, and 404 'No employees found' when there is none. *)
Theorem readEmployees_spec req c :
  after convert (readEmployees req) c = c
  /\ (c <> [] ->
      answer convert (readEmployees req) c
        = Resolved (status_json 200 (employees c)))
  /\ (c = [] ->
      answer convert (readEmployees req) c
        = Resolved (status_json 404 (message "No employees found"))).
Proof.
  unfold answer, after. destruct c as [|d c]; repeat split; try done.
Qed.

(** C5.  GET by employee_id leaves the collection as it is; it is
    answered 404 with a not-found message when no document has the
    employee_id of the URL, and 200 with the first document that has it
    otherwise. *)
Theorem readEmployee_spec req c :
  let k := params_employee_id req in
  ((forall x, x ∈ c -> employee_id x <> JStr k) ->
     answer convert (readEmployee req) c
       = Resolved (status_json 404
           (message ("Employee with ID " +:+ k +:+ " not found")))
     /\ after convert (readEmployee req) c = c)
  /\
  ((exists x, x ∈ c /\ employee_id x = JStr k) ->
     exists before d rest,
       c = before ++ d :: rest
       /\ employee_id d = JStr k
       /\ (forall x, x ∈ before -> employee_id x <> JStr k)
       /\ answer convert (readEmployee req) c
          = Resolved (status_json 200 (employee d))
       /\ after convert (readEmployee req) c = c).
Proof.
  intros k. unfold answer, after, readEmployee. fold k.
  cbn [try_catch mbind prog_bind bind await run exec fst snd].
  rewrite find_split_first. split.
  - intros Hc. by rewrite split_first_absent by (by apply absent_Forall).
  - intros (before & d & rest & Hs & -> & Hd & Hb)%split_first_present.
    exists before, d, rest. rewrite Hs. by repeat split.
Qed.

End Read.

(* ===================================================================== *)
(** ** DELETE /api/employees/:employee_id *)
(* ===================================================================== *)

Section Delete.
Variable convert : SchemaTypeName -> jsval -> option jsval.

(** C4.  DELETE by employee_id: when a document has the employee_id of
    the URL, the first such document, and no other, leaves the collection
    and the answer is 200 with a message naming the employee_id; when none
    has it, the answer is 404 and the collection is unchanged. *)
Theorem deleteEmployee_spec req c :
  let k := params_employee_id req in
  ((exists x, x ∈ c /\ employee_id x = JStr k) ->
     exists before d rest,
       c = before ++ d :: rest
       /\ employee_id d = JStr k
       /\ (forall x, x ∈ before -> employee_id x <> JStr k)
       /\ answer convert (deleteEmployee req) c
          = Resolved (status_json 200
              (message ("Employee with employee_id " +:+ k
                        +:+ " deleted successfully")))
       /\ after convert (deleteEmployee req) c = before ++ rest)
  /\
  ((forall x, x ∈ c -> employee_id x <> JStr k) ->
     answer convert (deleteEmployee req) c
       = Resolved (status_json 404
           (message ("Employee with employee_id " +:+ k +:+ " not found")))
     /\ after convert (deleteEmployee req) c = c).
Proof.
  intros k. unfold answer, after, deleteEmployee. fold k.
  cbn [try_catch mbind prog_bind bind await run exec fst snd]. split.
  - intros (before & d & rest & Hs & -> & Hd & Hb)%split_first_present.
    exists before, d, rest. rewrite Hs. by repeat split.
  - intros Hc. by rewrite split_first_absent by (by apply absent_Forall).
Qed.

End Delete.

(* ===================================================================== *)
(** ** Status codes *)
(* ===================================================================== *)

Lemma run_ends convert {R : Type} (p : prog R) c :
  ends p (answer convert p c).
Proof.
  unfold answer. revert c.
  induction p as [r|e|A q k IH]; intros c; simpl; [done|done|].
  destruct (exec convert q c) as [o c'].
  exists o. specialize (IH o c').
  by destruct (run convert (k o) c') as [[x c''] t].
Qed.

Lemma createEmployee_ends req x :
  ends (createEmployee req) x ->
  exists r, x = Resolved r /\ (status r = 201%nat \/ status r = 400%nat).
Proof.
  unfold createEmployee.
  destruct (body req) as [o|]; simpl.
  - destruct (_ || _) eqn:E; simpl.
    + intros ->. eexists; split; [done|]. by right.
    + intros [[d|e] ->]; eexists; (split; [done|]); simpl; auto.
  - intros ->. eexists; split; [done|]. by right.
Qed.

Lemma readEmployees_ends req x :
  ends (readEmployees req) x ->
  exists r, x = Resolved r
            /\ (status r = 200%nat \/ status r = 400%nat \/ status r = 404%nat).
Proof.
  unfold readEmployees. simpl.
  intros [[l|e] H]; simpl in H.
  - destruct (Nat.eqb _ _); simpl in H; subst;
      eexists; (split; [done|]); simpl; auto.
  - subst. eexists; (split; [done|]); simpl; auto.
Qed.

Lemma readEmployee_ends req x :
  ends (readEmployee req) x ->
  exists r, x = Resolved r
            /\ (status r = 200%nat \/ status r = 400%nat \/ status r = 404%nat).
Proof.
  unfold readEmployee. simpl.
  intros [[[d|]|e] ->]; eexists; (split; [done|]); simpl; auto.
Qed.

Lemma updateEmployee_ends req x :
  ends (updateEmployee req) x ->
  exists r, x = Resolved r
            /\ (status r = 200%nat \/ status r = 400%nat \/ status r = 404%nat).
Proof.
  unfold updateEmployee.
  destruct (body req) as [o|]; simpl.
  - destruct (_ || _) eqn:E; simpl.
    + intros ->. eexists; split; [done|]. simpl. auto.
    + intros [[[d|]|e] ->]; eexists; (split; [done|]); simpl; auto.
  - intros ->. eexists; split; [done|]. simpl. auto.
Qed.

Lemma deleteEmployee_ends req x :
  ends (deleteEmployee req) x ->
  exists r, x = Resolved r
            /\ (status r = 200%nat \/ status r = 400%nat \/ status r = 404%nat).
Proof.
  unfold deleteEmployee. simpl.
  intros [[[d|]|e] ->]; eexists; (split; [done|]); simpl; auto.
Qed.

(** C8.  Whatever the driver answers, each of the five employee handlers
    sends a response (no error escapes its [catch]) whose status is 200,
    201, 400 or 404; so does every run against a collection. *)
Theorem rest_status_only e h req :
  handler e = Some h ->
  (forall x, ends (h req) x -> exists r, x = Resolved r /\ rest_status (status r))
  /\
  (forall convert c,
     exists r, answer convert (h req) c = Resolved r /\ rest_status (status r)).
Proof.
  intros He.
  assert (forall x, ends (h req) x ->
            exists r, x = Resolved r /\ rest_status (status r)) as Hends.
  { intros x Hx. unfold rest_status.
    destruct e; cbn [handler] in He; try discriminate;
      injection He as <-.
    - apply (createEmployee_ends req) in Hx as (r & -> & ?). exists r. intuition.
    - apply (readEmployees_ends req) in Hx as (r & -> & ?). exists r. intuition.
    - apply (readEmployee_ends req) in Hx as (r & -> & ?). exists r. intuition.
    - apply (updateEmployee_ends req) in Hx as (r & -> & ?). exists r. intuition.
    - apply (deleteEmployee_ends req) in Hx as (r & -> & ?). exists r. intuition. }
  split; [done|].
  intros convert c. apply Hends, run_ends.
Qed.

(** C8 at work on the PUT handler. *)
Lemma rest_status_only_witness :
  (forall x, ends (updateEmployee (Request "emp456" (Some Sample.promotion_body))) x ->
     exists r, x = Resolved r /\ rest_status (status r))
  /\
  (forall convert c,
     exists r,
       answer convert (updateEmployee (Request "emp456" (Some Sample.promotion_body))) c
         = Resolved r
       /\ rest_status (status r)).
Proof.
  apply (rest_status_only UpdateEmployee updateEmployee
           (Request "emp456" (Some Sample.promotion_body))).
  reflexivity.
Defined.

(* ===================================================================== *)
(** ** Witnesses for the read and delete routes *)
(* ===================================================================== *)

(** C2 as stated fails on the empty collection: the answer is 404, not
    200 with the empty list. *)
Lemma readEmployees_empty_counterexample :
  answer Sample.convert (readEmployees (Request "" (Some ∅))) []
    = Resolved (status_json 404 (message "No employees found"))
  /\ answer Sample.convert (readEmployees (Request "" (Some ∅))) []
     <> Resolved (status_json 200 (employees [])).
Proof. split; [reflexivity|discriminate]. Qed.

(** C2, amended, at work on a collection of two and on the empty one. *)
Lemma readEmployees_spec_witness :
  answer Sample.convert (readEmployees (Request "" (Some ∅))) [Sample.alex; Sample.sam]
    = Resolved (status_json 200 (employees [Sample.alex; Sample.sam]))
  /\ answer Sample.convert (readEmployees (Request "" (Some ∅))) []
     = Resolved (status_json 404 (message "No employees found")).
Proof.
  split.
  - apply (proj1 (proj2 (readEmployees_spec Sample.convert (Request "" (Some ∅))
                           [Sample.alex; Sample.sam]))).
    discriminate.
  - apply (proj2 (proj2 (readEmployees_spec Sample.convert (Request "" (Some ∅)) []))).
    reflexivity.
Defined.

(** C5 at work: an unknown employee_id, and that of [sam]. *)
Lemma readEmployee_spec_witness :
  (answer Sample.convert (readEmployee (Request "emp999" (Some ∅)))
     [Sample.alex; Sample.sam]
   = Resolved (status_json 404 (message "Employee with ID emp999 not found"))
   /\ after Sample.convert (readEmployee (Request "emp999" (Some ∅)))
        [Sample.alex; Sample.sam]
      = [Sample.alex; Sample.sam])
  /\
  (exists before d rest,
     [Sample.alex; Sample.sam] = before ++ d :: rest
     /\ employee_id d = JStr "emp456"
     /\ (forall x, x ∈ before -> employee_id x <> JStr "emp456")
     /\ answer Sample.convert (readEmployee (Request "emp456" (Some ∅)))
          [Sample.alex; Sample.sam]
        = Resolved (status_json 200 (employee d))
     /\ after Sample.convert (readEmployee (Request "emp456" (Some ∅)))
          [Sample.alex; Sample.sam]
        = [Sample.alex; Sample.sam]).
Proof.
  split.
  - apply (proj1 (readEmployee_spec Sample.convert (Request "emp999" (Some ∅))
                    [Sample.alex; Sample.sam])).
    intros x Hx. each_of Hx; discriminate.
  - apply (proj2 (readEmployee_spec Sample.convert (Request "emp456" (Some ∅))
                    [Sample.alex; Sample.sam])).
    exists Sample.sam. split; [|reflexivity].
    apply list_elem_of_further, list_elem_of_here.
Defined.

(** C4 at work: the employee_id of [alex], and an unknown one. *)
Lemma deleteEmployee_spec_witness :
  (exists before d rest,
     [Sample.alex; Sample.sam] = before ++ d :: rest
     /\ employee_id d = JStr "emp123"
     /\ (forall x, x ∈ before -> employee_id x <> JStr "emp123")
     /\ answer Sample.convert (deleteEmployee (Request "emp123" (Some ∅)))
          [Sample.alex; Sample.sam]
        = Resolved (status_json 200
            (message "Employee with employee_id emp123 deleted successfully"))
     /\ after Sample.convert (deleteEmployee (Request "emp123" (Some ∅)))
          [Sample.alex; Sample.sam]
        = before ++ rest)
  /\
  (answer Sample.convert (deleteEmployee (Request "emp999" (Some ∅)))
     [Sample.alex; Sample.sam]
   = Resolved (status_json 404
       (message "Employee with employee_id emp999 not found"))
   /\ after Sample.convert (deleteEmployee (Request "emp999" (Some ∅)))
        [Sample.alex; Sample.sam]
      = [Sample.alex; Sample.sam]).
Proof.
  split.
  - apply (proj1 (deleteEmployee_spec Sample.convert (Request "emp123" (Some ∅))
                    [Sample.alex; Sample.sam])).
    exists Sample.alex. split; [apply list_elem_of_here|reflexivity].
  - apply (proj2 (deleteEmployee_spec Sample.convert (Request "emp999" (Some ∅))
                    [Sample.alex; Sample.sam])).
    intros x Hx. each_of Hx; discriminate.
Defined.

(* ===================================================================== *)
(** ** The schema *)
(* ===================================================================== *)

(** C6 as stated fails: [email] carries [unique: true] as well. *)
Lemma unique_only_employee_id_counterexample :
  unique_paths employeeSchema <> ["employee_id"]
  /\ (unique <$> schema_path "email") = Some true.
Proof. split; [discriminate|reflexivity]. Qed.

(** C6, amended.  Two paths of the schema carry a unique constraint,
    employee_id and email, and no other. *)
Theorem unique_constraints :
  unique_paths employeeSchema = ["employee_id"; "email"]
  /\ map (fun p => (p.1, unique p.2)) employeeSchema
     = [ ("employee_id", true); ("name", false); ("email", true);
         ("job_title", false); ("age", false); ("date_hired", false) ].
Proof. split; reflexivity. Qed.

(* ===================================================================== *)
(** ** The routing table *)
(* ===================================================================== *)

Lemma dispatch_serves a m url :
  is_Some (dispatch a m url) <->
  exists r, r ∈ routes a /\ verb r = m /\ matches (path r) url = true.
Proof.
  unfold dispatch. rewrite fmap_is_Some. split.
  - intros [r Hr]. apply find_some in Hr as [Hin Hs].
    exists r. unfold serves in Hs.
    apply andb_true_iff in Hs as [Hv Hm]. apply bool_decide_eq_true in Hv.
    by rewrite list_elem_of_In.
  - intros (r & Hin & Hv & Hm).
    destruct (List.find (fun r => serves r m url) (routes a)) as [r'|] eqn:Hf;
      [by eexists|].
    apply list_elem_of_In in Hin.
    pose proof (find_none _ _ Hf r Hin) as Hs. unfold serves in Hs.
    rewrite Hm, andb_true_r in Hs. apply bool_decide_eq_false in Hs. done.
Qed.

Lemma routes_app :
  routes app =
    [ Route POST [Lit "api"; Lit "employees"] CreateEmployee;
      Route GET [Lit "api"; Lit "employees"] ReadEmployees;
      Route GET [Lit "api"; Lit "employees"; Param "employee_id"] ReadEmployee;
      Route GET [Lit "api"; Lit "employees"] ReadEmployees;
      Route GET [Lit "api"; Lit "employees"; Param "employee_id"] ReadEmployee;
      Route GET [Lit "api"; Lit "employees"] ReadEmployees;
      Route GET [Lit "api"; Lit "employees"; Param "employee_id"] ReadEmployee;
      Route PUT [Lit "api"; Lit "employees"; Param "employee_id"] UpdateEmployee;
      Route DELETE [Lit "api"; Lit "employees"; Param "employee_id"] DeleteEmployee;
      Route GET [] Root;
      Route GET [Lit "health"] Health;
      Route GET [Lit "health"] Health ].
Proof. reflexivity. Qed.

(** C7 as stated fails: GET /health is answered, and by none of the five
    employee routes. *)
Lemma five_routes_counterexample :
  dispatch app GET ["health"] = Some Health
  /\ ~ exposes app employee_routes.
Proof.
  split; [reflexivity|].
  intros H. destruct (proj1 (H GET ["health"])) as (r & Hr & _ & Hm).
  - by eexists.
  - unfold employee_routes in Hr. each_of Hr; discriminate.
Qed.

(** C7, amended.  The application answers exactly seven routes: the five
    employee routes under /api/employees, one per CRUD operation, and the
    two health checks GET / and GET /health. *)
Theorem seven_routes :
  exposes app (employee_routes ++ health_routes)
  /\ remove_dups (map (fun r => (verb r, path r)) (routes app))
     = employee_routes ++ health_routes
  /\ dispatch app POST ["api"; "employees"] = Some CreateEmployee
  /\ dispatch app GET ["api"; "employees"] = Some ReadEmployees
  /\ (forall k, dispatch app GET ["api"; "employees"; k] = Some ReadEmployee)
  /\ (forall k, dispatch app PUT ["api"; "employees"; k] = Some UpdateEmployee)
  /\ (forall k, dispatch app DELETE ["api"; "employees"; k] = Some DeleteEmployee)
  /\ dispatch app GET [] = Some Root
  /\ dispatch app GET ["health"] = Some Health.
Proof.
  split; [|repeat split; reflexivity].
  intros m url. rewrite dispatch_serves, routes_app. split.
  - intros (r & Hr & Hv & Hm). exists (verb r, path r).
    split; [|done].
    each_of Hr; cbn [verb path];
      unfold employee_routes, health_routes; set_solver.
  - intros (r & Hr & Hv & Hm).
    unfold employee_routes, health_routes in Hr.
    each_of Hr; cbn [fst snd] in *;
      (eexists (Route _ _ _); split; [|split; [reflexivity|exact Hm]]);
      solve [repeat first [apply list_elem_of_here | apply list_elem_of_further]].
Qed.

(* ===================================================================== *)
(** ** The unique indexes *)
(* ===================================================================== *)

Lemma duplicate_key_None paths (others : collection) d :
  duplicate_key paths others d = None <->
  (forall p, p ∈ paths -> index_key (get_path d p) ∉ index_keys p others).
Proof.
  induction paths as [|p paths IH]; cbn [duplicate_key].
  - split; [|done]. intros _ p Hp. by apply elem_of_nil in Hp.
  - destruct (existsb _ others) eqn:E.
    + split; [discriminate|]. intros H.
      apply existsb_exists in E as (x & Hx & Hk).
      apply bool_decide_eq_true in Hk.
      destruct (H p (list_elem_of_here _ _)).
      unfold index_keys. rewrite <- Hk.
      apply (list_elem_of_fmap_2 (fun d => index_key (get_path d p))).
      by apply list_elem_of_In.
    + rewrite IH. split.
      * intros H q Hq. apply elem_of_cons in Hq as [Hq|Hq]; [subst q|by apply H].
        unfold index_keys.
        intros (x & Hk & Hx)%list_elem_of_fmap.
        assert (existsb (fun o => bool_decide
                  (index_key (get_path o p) = index_key (get_path d p)))
                  others = true) as E'; [|congruence].
        apply existsb_exists. exists x.
        split; [by apply list_elem_of_In|by apply bool_decide_eq_true].
      * intros H q Hq. apply H. by right.
Qed.

Lemma NoDup_replace {A : Type} (l1 l2 : list A) x y :
  NoDup (l1 ++ x :: l2) -> y ∉ l1 ++ l2 -> NoDup (l1 ++ y :: l2).
Proof.
  rewrite !NoDup_app, !NoDup_cons, elem_of_app.
  intros (H1 & H12 & Hx & H2) Hy. repeat split; try done.
  - intros z Hz [->|Hz2]%elem_of_cons; [tauto|].
    apply (H12 z Hz). by right.
  - tauto.
Qed.

Lemma NoDup_remove_middle {A : Type} (l1 l2 : list A) x :
  NoDup (l1 ++ x :: l2) -> NoDup (l1 ++ l2).
Proof.
  rewrite !NoDup_app, !NoDup_cons.
  intros (H1 & H12 & Hx & H2). repeat split; try done.
  intros z Hz Hz2. apply (H12 z Hz). by right.
Qed.

Section Index.
Variable convert : SchemaTypeName -> jsval -> option jsval.

Lemma exec_unique_index {A : Type} (q : query A) c :
  unique_index c -> unique_index (exec convert q c).2.
Proof.
  intros Hc. destruct q as [|k|k u|k|doc]; cbn [exec]; try done.
  - destruct (cast_update convert u) as [u'|]; [|done].
    destruct (split_first _ c) as [[[before d] rest]|] eqn:Hs; [|done].
    destruct (duplicate_key _ (before ++ rest) _) as [e|] eqn:Hdup; [done|].
    apply split_first_Some in Hs as (-> & _ & _).
    rewrite update_index_paths in Hdup.
    intros p Hp. specialize (Hc p Hp). unfold unique_paths in Hp.
    cbn [snd]. unfold index_keys in *. rewrite map_app in *. cbn [map] in *.
    cbn in Hp. rewrite !elem_of_cons, elem_of_nil in Hp.
    destruct Hp as [->|[->|[]]]; [done|].
    apply (NoDup_replace _ _ _ _ Hc).
    rewrite <- map_app.
    apply (proj1 (duplicate_key_None _ _ _) Hdup). apply list_elem_of_here.
  - destruct (split_first _ c) as [[[before d] rest]|] eqn:Hs; [|done].
    apply split_first_Some in Hs as (-> & _ & _).
    intros p Hp. specialize (Hc p Hp).
    cbn [snd]. unfold index_keys in *. rewrite map_app in *. cbn [map] in Hc.
    by apply NoDup_remove_middle in Hc.
  - destruct (cast_document convert doc) as [d|]; [|done].
    destruct (validate d); [done|].
    destruct (duplicate_key _ c d) as [e|] eqn:Hdup; [done|].
    intros p Hp. specialize (Hc p Hp).
    cbn [snd]. unfold index_keys in *. rewrite map_app. cbn [map].
    apply NoDup_app. repeat split; [done| |apply NoDup_singleton].
    intros z Hz ->%list_elem_of_singleton.
    by apply (proj1 (duplicate_key_None _ _ _) Hdup p Hp).
Qed.

(** Every body keeps the unique indexes, the five handlers among them. *)
Lemma run_unique_index {R : Type} (p : prog R) c :
  unique_index c -> unique_index (after convert p c).
Proof.
  unfold after. revert c.
  induction p as [r|e|A q k IH]; intros c Hc; cbn [run]; [done|done|].
  pose proof (exec_unique_index q c Hc) as Hq.
  destruct (exec convert q c) as [o c']. cbn [snd] in Hq.
  specialize (IH o c' Hq).
  by destruct (run convert (k o) c') as [[x c''] t].
Qed.

End Index.

(** Under the unique indexes, the document with a given employee_id is
    the only one. *)
Lemma unique_index_single (before rest : collection) d k :
  unique_index (before ++ d :: rest) ->
  employee_id d = JStr k ->
  forall x, x ∈ before ++ rest -> employee_id x <> JStr k.
Proof.
  intros Hc Hd x Hx Hk.
  specialize (Hc "employee_id" (list_elem_of_here _ _)).
  unfold index_keys in Hc. rewrite map_app in Hc. cbn [map] in Hc.
  change (get_path d "employee_id") with (employee_id d) in Hc.
  apply NoDup_app in Hc as (_ & H12 & [Hd2 _]%NoDup_cons).
  rewrite Hd in *. cbn [index_key] in *.
  apply elem_of_app in Hx as [Hx|Hx].
  - apply (H12 (JStr k)); [|apply list_elem_of_here].
    change (JStr k) with (index_key (JStr k)). rewrite <- Hk.
    by apply (list_elem_of_fmap_2 (fun d => index_key (get_path d "employee_id"))).
  - apply Hd2.
    change (JStr k) with (index_key (JStr k)). rewrite <- Hk.
    by apply (list_elem_of_fmap_2 (fun d => index_key (get_path d "employee_id"))).
Qed.

(* ===================================================================== *)
(** ** Further properties: the create route *)
(* ===================================================================== *)

Import AnyDriver Server Constraints.

(** Membership in a list written out element by element. *)
Ltac in_list :=
  solve [repeat first [apply list_elem_of_here | apply list_elem_of_further]].

Section CreateMore.
Variable convert : SchemaTypeName -> jsval -> option jsval.

Lemma exec_save_rejected doc c e c' :
  exec convert (save doc) c = (Rejected e, c') -> c' = c.
Proof.
  unfold exec. destruct (cast_document convert doc) as [d0|]; [|by intros [= _ <-]].
  destruct (validate d0); [by intros [= _ <-]|].
  destruct (duplicate_key (unique_paths employeeSchema) c d0);
    [by intros [= _ <-]|discriminate].
Qed.

Lemma exec_save_accepted doc c d c' :
  exec convert (save doc) c = (Resolved d, c') ->
  cast_document convert doc = Some d
  /\ validate d = None
  /\ duplicate_key (unique_paths employeeSchema) c d = None
  /\ c' = c ++ [d].
Proof.
  unfold exec. destruct (cast_document convert doc) as [d0|]; [|discriminate].
  destruct (validate d0) eqn:Hv; [discriminate|].
  destruct (duplicate_key (unique_paths employeeSchema) c d0) eqn:Hd;
    [discriminate|].
  by intros [= <- <-].
Qed.

(** What a 201 tells about the run. *)
Lemma createEmployee_created req c d :
  answer convert (createEmployee req) c
    = Resolved (status_json 201 (employee d)) ->
  exists o,
    body req = Some o
    /\ (forall f, f ∈ create_fields -> truthy (get o f) = true)
    /\ exec convert (save (new_employee o)) c = (Resolved d, c ++ [d])
    /\ run convert (createEmployee req) c
       = (Resolved (status_json 201 (employee d)), c ++ [d],
          [Called (save (new_employee o)) (Resolved d)]).
Proof.
  unfold answer. intros Hok.
  destruct (body req) as [o|] eqn:Hb;
    [|by rewrite (createEmployee_unparsed convert req c Hb) in Hok].
  exists o. split; [done|].
  destruct (falsy_field_dec create_fields o) as [(f & Hf & Hv)|Hall].
  - by rewrite (createEmployee_falsy convert req o c f Hb Hf Hv) in Hok.
  - rewrite (createEmployee_truthy convert req o c Hb Hall) in *.
    destruct (exec convert (save (new_employee o)) c) as [x c'] eqn:He.
    cbn [fst snd] in *. destruct x as [d0|e]; [|discriminate].
    injection Hok as ->.
    destruct (exec_save_accepted _ _ _ _ He) as (_ & _ & _ & ->). done.
Qed.

(** X1.  When the save of a POST is rejected, the answer is 400 with the
    error message of the driver and the collection is as it was. *)
Theorem createEmployee_save_rejected req c doc e :
  Called (save doc) (Rejected e) ∈ calls convert (createEmployee req) c ->
  answer convert (createEmployee req) c
    = Resolved (status_json 400 (message e))
  /\ after convert (createEmployee req) c = c.
Proof.
  unfold answer, after, calls. intros Hcall.
  destruct (body req) as [b|] eqn:Hb.
  2: { rewrite (createEmployee_unparsed convert req c Hb) in Hcall.
       by apply elem_of_nil in Hcall. }
  destruct (falsy_field_dec create_fields b) as [(f & Hf & Hv)|Hall].
  - rewrite (createEmployee_falsy convert req b c f Hb Hf Hv) in Hcall.
    by apply elem_of_nil in Hcall.
  - rewrite (createEmployee_truthy convert req b c Hb Hall) in *.
    destruct (exec convert (save (new_employee b)) c) as [o c'] eqn:He.
    cbn [fst snd] in *. apply list_elem_of_singleton in Hcall.
    assert (o = Rejected e) as ->.
    { destruct o as [d0|e0].
      - apply (f_equal saved) in Hcall. discriminate.
      - apply (f_equal (fun ev => match ev with
                                  | @Called A _ o =>
                                      match o with
                                      | Rejected x => Some x
                                      | Resolved _ => None
                                      end
                                  end)) in Hcall.
        by injection Hcall as ->. }
    by rewrite (exec_save_rejected _ _ _ _ He).
Qed.

End CreateMore.

(* ===================================================================== *)
(** ** Further properties: the handlers against any driver *)
(* ===================================================================== *)

(** X2.  Against any driver whatever, each of the five handlers ends in
    one of three ways.  The POST and PUT handlers, given a request whose
    body was never parsed, fail at the destructuring of [req.body] and
    answer 400 with the text of that TypeError, store untouched.  Given a
    parsed body they may stop at the presence check (400 'All fields are
    required.', store untouched).  Otherwise the handler makes exactly one
    driver call; it answers a rejection of that call with 400 and the
    error message of the driver, and only a resolution with 200, 201 or
    404. *)
Theorem any_driver_outcomes {S : Type}
    (driver : forall A : Type, query A -> S -> outcome A * S) e h req s :
  handler e = Some h ->
  (body req = None
   /\ (e = CreateEmployee \/ e = UpdateEmployee)
   /\ (exists k, (run_on driver (h req) s).1
                 = Resolved (status_json 400 (message (cannot_destructure k))))
   /\ (run_on driver (h req) s).2 = s)
  \/ ((exists o, body req = Some o)
      /\ (e = CreateEmployee \/ e = UpdateEmployee)
      /\ (run_on driver (h req) s).1 = Resolved bad_request
      /\ (run_on driver (h req) s).2 = s)
  \/ one_call driver s (run_on driver (h req) s).1 (run_on driver (h req) s).2.
Proof.
  intros He. unfold one_call.
  destruct e; cbn [handler] in He; try discriminate; injection He as <-.
  - unfold createEmployee. destruct (body req) as [b|];
      [|left; cbn; repeat split; eauto].
    right. destruct (_ || _); [left; cbn; repeat split; eauto|right].
    cbn [try_catch mbind prog_bind bind await run_on].
    match goal with
    | |- context [driver ?A ?q s] =>
        destruct (driver A q s) as [o s'] eqn:Hd; exists A, q, o
    end.
    destruct o as [d|err]; cbn; split; try done.
    eexists; split; [done|]. cbn. auto.
  - do 2 right. unfold readEmployees.
    cbn [try_catch mbind prog_bind bind await run_on].
    match goal with
    | |- context [driver ?A ?q s] =>
        destruct (driver A q s) as [o s'] eqn:Hd; exists A, q, o
    end.
    destruct o as [l|err]; cbn; [destruct (Nat.eqb _ _); cbn|];
      split; try done; eexists; (split; [done|]); cbn; auto.
  - do 2 right. unfold readEmployee.
    cbn [try_catch mbind prog_bind bind await run_on].
    match goal with
    | |- context [driver ?A ?q s] =>
        destruct (driver A q s) as [o s'] eqn:Hd; exists A, q, o
    end.
    destruct o as [[d|]|err]; cbn; split; try done;
      eexists; (split; [done|]); cbn; auto.
  - unfold updateEmployee. destruct (body req) as [b|];
      [|left; cbn; repeat split; eauto].
    right. destruct (_ || _); [left; cbn; repeat split; eauto|right].
    cbn [try_catch mbind prog_bind bind await run_on].
    match goal with
    | |- context [driver ?A ?q s] =>
        destruct (driver A q s) as [o s'] eqn:Hd; exists A, q, o
    end.
    destruct o as [[d|]|err]; cbn; split; try done;
      eexists; (split; [done|]); cbn; auto.
  - do 2 right. unfold deleteEmployee.
    cbn [try_catch mbind prog_bind bind await run_on].
    match goal with
    | |- context [driver ?A ?q s] =>
        destruct (driver A q s) as [o s'] eqn:Hd; exists A, q, o
    end.
    destruct o as [[d|]|err]; cbn; split; try done;
      eexists; (split; [done|]); cbn; auto.
Qed.

(** X2 at work: the PUT handler against a driver that rejects every
    call. *)
Lemma any_driver_outcomes_witness :
  let req := Request "emp456" (Some Sample.promotion_body) in
  (body req = None
   /\ (UpdateEmployee = CreateEmployee \/ UpdateEmployee = UpdateEmployee)
   /\ (exists k, (run_on down (updateEmployee req) tt).1
                 = Resolved (status_json 400 (message (cannot_destructure k))))
   /\ (run_on down (updateEmployee req) tt).2 = tt)
  \/ ((exists o, body req = Some o)
      /\ (UpdateEmployee = CreateEmployee \/ UpdateEmployee = UpdateEmployee)
      /\ (run_on down (updateEmployee req) tt).1 = Resolved bad_request
      /\ (run_on down (updateEmployee req) tt).2 = tt)
  \/ one_call down tt
       (run_on down (updateEmployee req) tt).1
       (run_on down (updateEmployee req) tt).2.
Proof.
  apply (any_driver_outcomes down UpdateEmployee updateEmployee
           (Request "emp456" (Some Sample.promotion_body)) tt).
  reflexivity.
Defined.

(** The in-memory collection is one such driver. *)
Lemma run_on_exec convert {R : Type} (p : prog R) c :
  run_on (fun A => exec convert) p c
  = (answer convert p c, after convert p c).
Proof.
  unfold answer, after. revert c.
  induction p as [r|e|A q k IH]; intros c; cbn [run_on run]; [done|done|].
  destruct (exec convert q c) as [o c']. rewrite IH.
  by destruct (run convert (k o) c') as [[x c''] t].
Qed.

(* ===================================================================== *)
(** ** Further properties: what POST stores *)
(* ===================================================================== *)

Section Stored.
Variable convert : SchemaTypeName -> jsval -> option jsval.

Lemma first_error_None checks :
  first_error checks = None -> Forall (fun c => c = None) checks.
Proof.
  induction checks as [|[e|] checks IH]; cbn; [constructor|discriminate|].
  intros H. constructor; auto.
Qed.

Lemma cast_path_typed p t v v' :
  schema_path p = Some t ->
  truthy v = true -> cast_path convert p v = Some v' ->
  is_type (type t) v' = true.
Proof.
  unfold cast_path. intros -> Hv Hc. by eapply cast_truthy.
Qed.

Lemma created_valid req c d :
  answer convert (createEmployee req) c
    = Resolved (status_json 201 (employee d)) ->
  valid_employee d.
Proof.
  intros (o & _ & Hall & He & _)%createEmployee_created.
  apply exec_save_accepted in He as (Hc & Hv & _ & _).
  unfold cast_document, new_employee in Hc. cbn [employee_id name email
    job_title age date_hired] in Hc.
  destruct (cast_path convert "employee_id" _) as [v1|] eqn:H1; [|discriminate].
  destruct (cast_path convert "name" _) as [v2|] eqn:H2; [|discriminate].
  destruct (cast_path convert "email" _) as [v3|] eqn:H3; [|discriminate].
  destruct (cast_path convert "job_title" _) as [v4|] eqn:H4; [|discriminate].
  destruct (cast_path convert "age" _) as [v5|] eqn:H5; [|discriminate].
  destruct (cast_path convert "date_hired" _) as [v6|] eqn:H6; [|discriminate].
  cbn in Hc. injection Hc as <-.
  eapply cast_path_typed in H1; [|reflexivity|apply Hall; set_solver].
  eapply cast_path_typed in H2; [|reflexivity|apply Hall; set_solver].
  eapply cast_path_typed in H3; [|reflexivity|apply Hall; set_solver].
  eapply cast_path_typed in H4; [|reflexivity|apply Hall; set_solver].
  eapply cast_path_typed in H5; [|reflexivity|apply Hall; set_solver].
  eapply cast_path_typed in H6; [|reflexivity|apply Hall; set_solver].
  cbn [type] in *.
  destruct v1 as [| | | |id| |]; try discriminate.
  destruct v2 as [| | | |nm| |]; try discriminate.
  destruct v3 as [| | | |em| |]; try discriminate.
  destruct v4 as [| | | |jt| |]; try discriminate.
  destruct v5 as [| | |n| | |]; try discriminate.
  destruct v6 as [| | | | |ms|]; try discriminate.
  exists id, nm, em, jt, n, ms. split; [done|].
  apply first_error_None in Hv. unfold employeeSchema in Hv.
  cbn [map fst snd get_path String.eqb Ascii.eqb Bool.eqb employee_id name
       email job_title age date_hired] in Hv.
  rewrite !Forall_cons in Hv.
  destruct Hv as (Vid & Vnm & Vem & Vjt & Vage & _).
  apply first_error_None in Vid, Vnm, Vem, Vjt, Vage.
  rewrite !Forall_cons in Vid, Vnm, Vem, Vjt, Vage.
  repeat split.
  - destruct Vid as (Hr & _). cbn in Hr.
    intros ->. discriminate.
  - destruct Vnm as (_ & Hm & _). cbn in Hm.
    destruct (String.length nm) as [|[|[|?]]]; try discriminate; lia.
  - destruct Vem as (_ & _ & Hm & _). cbn in Hm.
    destruct (String.eqb em "") eqn:E; [left; by apply String.eqb_eq|right].
    by destruct (email_regex em).
  - destruct Vjt as (_ & _ & _ & He & _). cbn -[String.eqb] in He.
    destruct (String.eqb_spec jt "Software Developer"); [subst; in_list|].
    destruct (String.eqb_spec jt "Product Manager"); [subst; in_list|].
    destruct (String.eqb_spec jt "Graphic Designer"); [subst; in_list|].
    destruct (String.eqb_spec jt "HR"); [subst; in_list|].
    discriminate.
  - destruct Vage as (_ & _ & _ & _ & Hlo & _). cbn in Hlo.
    destruct (19 <=? n) eqn:E; [lia|discriminate].
  - destruct Vage as (_ & _ & _ & _ & _ & Hhi & _). cbn in Hhi.
    destruct (n <=? 120) eqn:E; [lia|discriminate].
Qed.

(** X3.  Every document a POST answers 201 with passed the validators of
    the schema: its employee_id is a non-empty string, its name has at
    least 3 characters, its email is empty or has the shape of the
    pattern, its job title is one of the four of the enum, its age lies
    between 19 and 120 and its hiring date is a date. *)
Theorem createEmployee_stores_valid req c d :
  answer convert (createEmployee req) c
    = Resolved (status_json 201 (employee d)) ->
  valid_employee d.
Proof. apply created_valid. Qed.

End Stored.

(** X3 at work on the body of [alex]. *)
Lemma createEmployee_stores_valid_witness : valid_employee Sample.alex.
Proof.
  apply (createEmployee_stores_valid Sample.convert
           (Request "" (Some Sample.alex_body)) [] Sample.alex).
  vm_compute. reflexivity.
Defined.

(* ===================================================================== *)
(** ** Further properties: how the routes compose *)
(* ===================================================================== *)

Section Compose.
Variable convert : SchemaTypeName -> jsval -> option jsval.

Lemma readEmployee_first k o (before : collection) d rest :
  employee_id d = JStr k ->
  (forall x, x ∈ before -> employee_id x <> JStr k) ->
  run convert (readEmployee (Request k o)) (before ++ d :: rest)
  = (Resolved (status_json 200 (employee d)), before ++ d :: rest,
     [Called (findOne k) (Resolved (Some d))]).
Proof.
  intros Hd Hb. unfold readEmployee. cbn [params_employee_id].
  cbn [try_catch mbind prog_bind bind await run exec].
  rewrite find_split_first.
  rewrite (split_first_app _ before d rest);
    [done|by apply absent_Forall|by apply has_employee_id_true].
Qed.

Lemma readEmployee_none k o (c : collection) :
  (forall x, x ∈ c -> employee_id x <> JStr k) ->
  answer convert (readEmployee (Request k o)) c
  = Resolved (status_json 404
      (message ("Employee with ID " +:+ k +:+ " not found"))).
Proof.
  intros Hc. unfold answer, readEmployee. cbn [params_employee_id].
  cbn [try_catch mbind prog_bind bind await run exec fst].
  rewrite find_split_first.
  by rewrite split_first_absent by (by apply absent_Forall).
Qed.

Lemma readEmployees_some r (c : collection) :
  c <> [] ->
  answer convert (readEmployees r) c
  = Resolved (status_json 200 (employees c)).
Proof. by destruct c. Qed.

(** What a 200 tells about the run of a PUT. *)
Lemma updateEmployee_updated req c d' :
  answer convert (updateEmployee req) c
    = Resolved (status_json 200 (employee d')) ->
  exists o,
    body req = Some o
    /\ (forall f, f ∈ update_fields -> truthy (get o f) = true)
    /\ exists u' before d rest,
         cast_update convert (update_of o) = Some u'
         /\ c = before ++ d :: rest
         /\ employee_id d = JStr (params_employee_id req)
         /\ (forall x, x ∈ before -> employee_id x <> JStr (params_employee_id req))
         /\ (forall x, x ∈ before ++ rest ->
               index_key (email x) <> index_key (email d'))
         /\ d' = apply_update u' d
         /\ after convert (updateEmployee req) c = before ++ d' :: rest.
Proof.
  unfold answer, after. intros Hok.
  destruct (body req) as [o|] eqn:Hbody;
    [|by rewrite (updateEmployee_unparsed convert req c Hbody) in Hok].
  exists o. split; [done|].
  destruct (falsy_field_dec update_fields o) as [(f & Hf & Hv)|Hall].
  - by rewrite (updateEmployee_falsy convert req o c f Hbody Hf Hv) in Hok.
  - split; [done|].
    rewrite (updateEmployee_truthy convert req o c Hbody Hall) in *.
    cbv zeta in *.
    destruct (exec convert _ c) as [x c'] eqn:He. cbn [fst snd] in *.
    apply exec_update_inv in He.
    destruct x as [[d0|]|e]; try discriminate.
    injection Hok as <-.
    destruct He as (u' & before & d & rest & Hu & -> & Hd & Hb & He & -> & ->).
    by exists u', before, d, rest.
Qed.

(** The employee_id of a saved document is held by no document that was
    there before. *)
Lemma saved_employee_id_fresh (c : collection) d :
  duplicate_key (unique_paths employeeSchema) c d = None ->
  forall x, x ∈ c -> employee_id x <> employee_id d.
Proof.
  intros Hdup x Hx Heq.
  apply (proj1 (duplicate_key_None _ _ _) Hdup "employee_id"); [in_list|].
  unfold index_keys.
  change (get_path d "employee_id") with (employee_id d). rewrite <- Heq.
  by apply (list_elem_of_fmap_2 (fun d => index_key (get_path d "employee_id"))).
Qed.

(** X4.  Round trip of POST and GET: after a POST answered 201 with a
    document, the employee_id of that document is a string, and GET on it
    is answered 200 with the same document; GET on the collection is
    answered 200 with the old documents followed by the new one. *)
Theorem create_then_read req c d :
  answer convert (createEmployee req) c
    = Resolved (status_json 201 (employee d)) ->
  exists k,
    employee_id d = JStr k
    /\ (forall o,
          answer convert (readEmployee (Request k o))
            (after convert (createEmployee req) c)
          = Resolved (status_json 200 (employee d)))
    /\ (forall r,
          answer convert (readEmployees r)
            (after convert (createEmployee req) c)
          = Resolved (status_json 200 (employees (c ++ [d])))).
Proof.
  intros Hok.
  pose proof (created_valid convert req c d Hok)
    as (id & nm & em & jt & n & ms & -> & _).
  apply createEmployee_created in Hok as (b & _ & _ & He & Hrun).
  apply exec_save_accepted in He as (_ & _ & Hdup & _).
  unfold after. rewrite Hrun. cbn [fst snd].
  exists id. split; [done|]. split.
  - intros o. unfold answer.
    rewrite (readEmployee_first id o c _ []); [done|done|].
    intros x Hx. by apply (saved_employee_id_fresh c _ Hdup x Hx).
  - intros r. apply readEmployees_some. by destruct c.
Qed.

(** X5.  The unique indexes at work on POST: when the employee_id or the
    email of the body is a string that a document of the collection
    already holds, the answer is 400 and nothing is added. *)
Theorem createEmployee_taken req o c f k :
  body req = Some o ->
  f = "employee_id" \/ f = "email" ->
  get o f = JStr k ->
  (exists x, x ∈ c /\ get_path x f = JStr k) ->
  (exists e, answer convert (createEmployee req) c
             = Resolved (status_json 400 (message e)))
  /\ after convert (createEmployee req) c = c.
Proof.
  intros Hb Hf Hk (x & Hx & Hxk). unfold answer, after.
  destruct (falsy_field_dec create_fields o) as [(g & Hg & Hv)|Hall].
  { rewrite (createEmployee_falsy convert req o c g Hb Hg Hv). by eauto. }
  rewrite (createEmployee_truthy convert req o c Hb Hall).
  destruct (exec convert (save (new_employee o)) c) as [y c'] eqn:He.
  cbn [fst snd]. destruct y as [d|e].
  - exfalso. apply exec_save_accepted in He as (Hc & _ & Hdup & _).
    assert (get_path d f = JStr k) as Hd.
    { unfold cast_document, new_employee in Hc.
      cbn [employee_id name email job_title age date_hired] in Hc.
      destruct (cast_path convert "employee_id" _) as [v1|] eqn:H1; [|discriminate].
      destruct (cast_path convert "name" _) as [v2|]; [|discriminate].
      destruct (cast_path convert "email" _) as [v3|] eqn:H3; [|discriminate].
      destruct (cast_path convert "job_title" _) as [v4|]; [|discriminate].
      destruct (cast_path convert "age" _) as [v5|]; [|discriminate].
      destruct (cast_path convert "date_hired" _) as [v6|]; [|discriminate].
      cbn in Hc. injection Hc as <-.
      destruct Hf as [-> | ->]; rewrite Hk in *; cbn in *; congruence. }
    apply (proj1 (duplicate_key_None _ _ _) Hdup f).
    { destruct Hf as [-> | ->]; in_list. }
    unfold index_keys. rewrite Hd, <- Hxk.
    by apply (list_elem_of_fmap_2 (fun d => index_key (get_path d f))).
  - rewrite (exec_save_rejected _ _ _ _ _ He). by eauto.
Qed.

(** X6.  Round trip of PUT and GET: after a PUT answered 200 with a
    document, GET on the same employee_id is answered 200 with that
    document. *)
Theorem update_then_read req c d' :
  answer convert (updateEmployee req) c
    = Resolved (status_json 200 (employee d')) ->
  forall o,
    answer convert (readEmployee (Request (params_employee_id req) o))
      (after convert (updateEmployee req) c)
    = Resolved (status_json 200 (employee d')).
Proof.
  intros Hok o.
  apply updateEmployee_updated in Hok
    as (b & _ & _ & u' & before & d & rest & _ & -> & Hd & Hb & _ & -> & ->).
  unfold answer.
  by rewrite (readEmployee_first _ o before (apply_update u' d) rest).
Qed.

End Compose.

Section ComposeMore.
Variable convert : SchemaTypeName -> jsval -> option jsval.

Lemma assign_assign v old : assign v (assign v old) = assign v old.
Proof. by destruct v. Qed.

Lemma apply_update_twice u d :
  apply_update u (apply_update u d) = apply_update u d.
Proof.
  unfold apply_update. cbn [employee_id name email job_title age date_hired].
  by rewrite !assign_assign.
Qed.

(** X7.  PUT is idempotent: a PUT answered 200, sent again, is answered
    200 with the same document and leaves the collection as the first
    one left it. *)
Theorem update_twice req c d' :
  answer convert (updateEmployee req) c
    = Resolved (status_json 200 (employee d')) ->
  answer convert (updateEmployee req) (after convert (updateEmployee req) c)
    = Resolved (status_json 200 (employee d'))
  /\ after convert (updateEmployee req) (after convert (updateEmployee req) c)
     = after convert (updateEmployee req) c.
Proof.
  intros Hok.
  apply updateEmployee_updated in Hok
    as (b & Hbody & Hall & u' & before & d & rest & Hu & -> & Hd & Hb & He
        & -> & ->).
  unfold answer, after.
  rewrite (updateEmployee_truthy convert req b _ Hbody Hall). cbv zeta.
  rewrite (exec_update_found convert _ _ u' before (apply_update u' d) rest);
    rewrite ?apply_update_twice; done.
Qed.

(** What a 200 tells about the run of a DELETE. *)
Lemma deleteEmployee_deleted req c text :
  answer convert (deleteEmployee req) c
    = Resolved (status_json 200 (message text)) ->
  exists before d rest,
    c = before ++ d :: rest
    /\ employee_id d = JStr (params_employee_id req)
    /\ after convert (deleteEmployee req) c = before ++ rest.
Proof.
  unfold answer, after, deleteEmployee.
  cbn [try_catch mbind prog_bind bind await run exec fst snd].
  destruct (split_first _ c) as [[[before d] rest]|] eqn:Hs; [|discriminate].
  apply split_first_Some in Hs as (-> & Hd & _). intros _.
  exists before, d, rest. repeat split. by apply has_employee_id_true.
Qed.

Lemma deleteEmployee_none k o (c : collection) :
  (forall x, x ∈ c -> employee_id x <> JStr k) ->
  run convert (deleteEmployee (Request k o)) c
  = (Resolved (status_json 404
       (message ("Employee with employee_id " +:+ k +:+ " not found"))),
     c, [Called (findOneAndDelete k) (Resolved None)]).
Proof.
  intros Hc. unfold deleteEmployee. cbn [params_employee_id].
  cbn [try_catch mbind prog_bind bind await run exec].
  by rewrite split_first_absent by (by apply absent_Forall).
Qed.

(** X8.  While the unique indexes hold, a DELETE answered 200 removes
    the employee for good: GET on the same employee_id is then answered
    404, and so is a second DELETE, which changes nothing. *)
Theorem delete_then_gone req c text :
  unique_index c ->
  answer convert (deleteEmployee req) c
    = Resolved (status_json 200 (message text)) ->
  let k := params_employee_id req in
  let c' := after convert (deleteEmployee req) c in
  (forall o,
     answer convert (readEmployee (Request k o)) c'
     = Resolved (status_json 404
         (message ("Employee with ID " +:+ k +:+ " not found"))))
  /\ (forall o,
        answer convert (deleteEmployee (Request k o)) c'
        = Resolved (status_json 404
            (message ("Employee with employee_id " +:+ k +:+ " not found")))
        /\ after convert (deleteEmployee (Request k o)) c' = c').
Proof.
  intros Hc Hok k c'. subst c'.
  apply deleteEmployee_deleted in Hok as (before & d & rest & -> & Hd & ->).
  pose proof (unique_index_single before rest d k Hc Hd) as Hgone.
  split; intros o.
  - by apply readEmployee_none.
  - unfold answer, after. by rewrite (deleteEmployee_none k o _ Hgone).
Qed.

(** X9.  Deleting the only employee empties the list route: after a
    DELETE answered 200 on a collection of one document, GET on the
    collection is answered 404 'No employees found'. *)
Theorem delete_last_then_list req d text r :
  answer convert (deleteEmployee req) [d]
    = Resolved (status_json 200 (message text)) ->
  after convert (deleteEmployee req) [d] = []
  /\ answer convert (readEmployees r) (after convert (deleteEmployee req) [d])
     = Resolved (status_json 404 (message "No employees found")).
Proof.
  intros Hok.
  apply deleteEmployee_deleted in Hok as (before & x & rest & Hc & _ & ->).
  assert (before = [] /\ rest = []) as [-> ->].
  { destruct before as [|y [|z before]]; destruct rest; by simplify_eq/=. }
  done.
Qed.

End ComposeMore.

(* ===================================================================== *)
(** ** Further properties: the application as a whole *)
(* ===================================================================== *)

Section Whole.
Variable convert : SchemaTypeName -> jsval -> option jsval.

Lemma routed_handler now m url b c r h :
  route_of app m url = Some r ->
  handler (target r) = Some h ->
  routed convert now m url b c
  = sent (run convert
            (h (Request (default "" (bind_params (path r) url
                                       !! "employee_id"))
                        b)) c).
Proof.
  intros Hr Hh. unfold routed, sent. rewrite Hr.
  destruct (target r); cbn [handler] in Hh; try discriminate;
    injection Hh as <-; cbn [handler];
    by destruct (run convert _ c) as [[o c'] t].
Qed.


End Whole.

Section WholeMore.
Variable convert : SchemaTypeName -> jsval -> option jsval.


Lemma route_of_app m url r :
  route_of app m url = Some r ->
  target r = Root \/ target r = Health
  \/ exists h, handler (target r) = Some h.
Proof.
  unfold route_of. intros [Hin _]%find_some. rewrite routes_app in Hin.
  cbn [In] in Hin. destruct_or!; subst; cbn [target handler]; eauto.
Qed.


Lemma serve_unique_index now rq c :
  unique_index c -> unique_index (serve convert now rq c).2.
Proof.
  intros Hc. unfold serve.
  destruct (http_parsing rq) as [code|b]; [done|].
  destruct (route_of app (http_method rq) (http_url rq)) as [r|] eqn:Hr.
  - destruct (route_of_app _ _ _ Hr) as [Ht|[Ht|[h Hh]]].
    + unfold routed. by rewrite Hr, Ht.
    + unfold routed. by rewrite Hr, Ht.
    + rewrite (routed_handler convert now _ _ b c r h Hr Hh). unfold sent.
      cbn [snd]. by apply (run_unique_index convert).
  - unfold routed. by rewrite Hr.
Qed.

(** X12.  Whatever requests the application has answered since the
    collection was empty, no two documents share an employee_id and no
    two share an email. *)
Theorem reachable_unique rqs :
  NoDup (index_keys "employee_id" (browse convert rqs []))
  /\ NoDup (index_keys "email" (browse convert rqs [])).
Proof.
  assert (unique_index (browse convert rqs [])) as H.
  { assert (unique_index []) as H0 by (intros p _; apply NoDup_nil_2).
    revert H0. generalize (@nil document).
    induction rqs as [|[now rq] rqs IH]; intros c Hc; cbn [browse]; [done|].
    apply IH. by apply serve_unique_index. }
  split; apply H; in_list.
Qed.

End WholeMore.

(* ===================================================================== *)
(** ** Further properties: the presence checks, exactly *)
(* ===================================================================== *)

Lemma truthy_false v : truthy v = false <-> v ∈ falsy_values.
Proof.
  unfold falsy_values. split.
  - destruct v as [| |[]|n|s| |]; cbn; try discriminate; intros H; try in_list.
    + apply negb_false_iff, Z.eqb_eq in H as ->. in_list.
    + apply negb_false_iff, String.eqb_eq in H as ->. in_list.
  - intros H. by each_of H.
Qed.

Section PresenceExact.
Variable convert : SchemaTypeName -> jsval -> option jsval.

(** X13.  The presence checks, exactly: a POST (a PUT) stops with 400
    'All fields are required.' and no driver call if and only if its body
    was parsed and one of its six (five) fields is undefined, null, false,
    0 or the empty string; with a parsed body in every other case it makes
    its driver call; with no parsed body it makes no driver call and
    answers 400 with the text of the TypeError of the destructuring, which
    is not 'All fields are required.'. *)
Theorem presence_check_exact req c :
  ((exists o, body req = Some o
      /\ exists f, f ∈ create_fields /\ get o f ∈ falsy_values)
   <-> run convert (createEmployee req) c = (Resolved bad_request, c, []))
  /\ ((exists o, body req = Some o
         /\ exists f, f ∈ update_fields /\ get o f ∈ falsy_values)
      <-> run convert (updateEmployee req) c = (Resolved bad_request, c, []))
  /\ (forall o, body req = Some o ->
        (forall f, f ∈ create_fields -> get o f ∉ falsy_values) ->
        exists x, calls convert (createEmployee req) c
                  = [Called (save (new_employee o)) x])
  /\ (forall o, body req = Some o ->
        (forall f, f ∈ update_fields -> get o f ∉ falsy_values) ->
        exists x, calls convert (updateEmployee req) c
                  = [Called (findOneAndUpdate (params_employee_id req)
                               (update_of o)) x])
  /\ (body req = None ->
        run convert (createEmployee req) c
        = (Resolved (status_json 400
             (message (cannot_destructure "employee_id"))), c, [])
        /\ run convert (updateEmployee req) c
           = (Resolved (status_json 400
                (message (cannot_destructure "name"))), c, [])
        /\ status_json 400 (message (cannot_destructure "employee_id"))
           <> bad_request
        /\ status_json 400 (message (cannot_destructure "name"))
           <> bad_request).
Proof.
  split; [|split; [|split; [|split]]].
  - split.
    + intros (o & Hb & f & Hf & Hv%truthy_false).
      by apply createEmployee_falsy with o f.
    + intros Hrun. destruct (body req) as [o|] eqn:Hb.
      * exists o. split; [done|].
        destruct (falsy_field_dec create_fields o) as [(f & Hf & Hv)|Hall].
        -- exists f. by rewrite <- truthy_false.
        -- rewrite (createEmployee_truthy convert req o c Hb Hall) in Hrun.
           discriminate.
      * rewrite (createEmployee_unparsed convert req c Hb) in Hrun.
        discriminate.
  - split.
    + intros (o & Hb & f & Hf & Hv%truthy_false).
      by apply updateEmployee_falsy with o f.
    + intros Hrun. destruct (body req) as [o|] eqn:Hb.
      * exists o. split; [done|].
        destruct (falsy_field_dec update_fields o) as [(f & Hf & Hv)|Hall].
        -- exists f. by rewrite <- truthy_false.
        -- rewrite (updateEmployee_truthy convert req o c Hb Hall) in Hrun.
           discriminate.
      * rewrite (updateEmployee_unparsed convert req c Hb) in Hrun.
        discriminate.
  - intros o Hb Hall. unfold calls.
    rewrite (createEmployee_truthy convert req o c Hb); [by eexists|].
    intros f Hf. specialize (Hall f Hf). rewrite <- truthy_false in Hall.
    by destruct (truthy _).
  - intros o Hb Hall. unfold calls.
    rewrite (updateEmployee_truthy convert req o c Hb); [by eexists|].
    intros f Hf. specialize (Hall f Hf). rewrite <- truthy_false in Hall.
    by destruct (truthy _).
  - intros Hb. repeat split.
    + by apply createEmployee_unparsed.
    + by apply updateEmployee_unparsed.
    + discriminate.
    + discriminate.
Qed.

(** X14.  PUT runs no validator of the schema: non-empty strings for
    name, email and job_title and a non-zero age are written as they are,
    whatever their length, shape, enum or range, provided the hiring date
    casts and no other document holds the email. *)
Theorem updateEmployee_unvalidated req o before d rest nm em jt n dv :
  let k := params_employee_id req in
  body req = Some o ->
  employee_id d = JStr k ->
  (forall x, x ∈ before -> employee_id x <> JStr k) ->
  get o "name" = JStr nm -> nm <> "" ->
  get o "email" = JStr em -> em <> "" ->
  get o "job_title" = JStr jt -> jt <> "" ->
  get o "age" = JNum n -> n <> 0 ->
  truthy (get o "date_hired") = true ->
  cast_path convert "date_hired" (get o "date_hired") = Some dv ->
  (forall x, x ∈ before ++ rest -> index_key (email x) <> JStr em) ->
  let d' := Document (employee_id d) (JStr nm) (JStr em) (JStr jt) (JNum n) dv in
  answer convert (updateEmployee req) (before ++ d :: rest)
    = Resolved (status_json 200 (employee d'))
  /\ after convert (updateEmployee req) (before ++ d :: rest)
     = before ++ d' :: rest.
Proof.
  intros k Hbody Hd Hb Hnm Hnm' Hem Hem' Hjt Hjt' Hn Hn' Hdate Hcast Hfree d'.
  assert (forall f, f ∈ update_fields -> truthy (get o f) = true)
    as Hall.
  { intros f Hf. unfold update_fields in Hf.
    each_of Hf; rewrite ?Hnm, ?Hem, ?Hjt, ?Hn; cbn.
    - by apply negb_true_iff, String.eqb_neq.
    - by apply negb_true_iff, String.eqb_neq.
    - by apply negb_true_iff, String.eqb_neq.
    - by apply negb_true_iff, Z.eqb_neq. }
  assert (cast_update convert (update_of o)
          = Some (Update (JStr nm) (JStr em) (JStr jt) (JNum n) dv)) as Hu.
  { unfold cast_update, update_of. cbn [set_name set_email set_job_title
      set_age set_date_hired]. by rewrite Hnm, Hem, Hjt, Hn, Hcast. }
  assert (apply_update (Update (JStr nm) (JStr em) (JStr jt) (JNum n) dv) d = d')
    as Hd'.
  { by rewrite (apply_update_truthy convert _ _ d Hall Hu). }
  unfold answer, after.
  rewrite (updateEmployee_truthy convert req o _ Hbody Hall). cbv zeta. fold k.
  rewrite (exec_update_found convert k _ _ before d rest Hu Hd Hb);
    rewrite Hd'; done.
Qed.

End PresenceExact.

(** X14 at work: a body no validator of the schema would accept is
    written over [sam]. *)
Lemma updateEmployee_unvalidated_witness :
  answer Sample.convert
    (updateEmployee (Request "emp456" (Some Sample.unchecked_body)))
    ([Sample.alex] ++ Sample.sam :: [])
  = Resolved (status_json 200
      (employee (Document (employee_id Sample.sam) (JStr "Sa") (JStr "sam")
                   (JStr "Intern") (JNum 5) (JDate 1719964800000))))
  /\ after Sample.convert
       (updateEmployee (Request "emp456" (Some Sample.unchecked_body)))
       ([Sample.alex] ++ Sample.sam :: [])
     = [Sample.alex]
       ++ Document (employee_id Sample.sam) (JStr "Sa") (JStr "sam")
            (JStr "Intern") (JNum 5) (JDate 1719964800000) :: [].
Proof.
  apply (updateEmployee_unvalidated Sample.convert
           (Request "emp456" (Some Sample.unchecked_body))
           Sample.unchecked_body
           [Sample.alex] Sample.sam [] "Sa" "sam" "Intern" 5
           (JDate 1719964800000));
    try (vm_compute; reflexivity); try discriminate.
  - intros x Hx. each_of Hx; discriminate.
  - intros x Hx. each_of Hx; discriminate.
Defined.

(** X13 at work: the body of [alex] reaches the save, the same body with
    [email: null] does not, and neither does a request with no parsed
    body. *)
Lemma presence_check_exact_witness :
  (exists x, calls Sample.convert
               (createEmployee (Request "" (Some Sample.alex_body))) []
             = [Called (save (new_employee Sample.alex_body)) x])
  /\ run Sample.convert
       (createEmployee (Request "" (Some (<["email" := JNull]> Sample.alex_body)))) []
     = (Resolved bad_request, [], [])
  /\ run Sample.convert (createEmployee (Request "" None)) []
     = (Resolved (status_json 400
          (message (cannot_destructure "employee_id"))), [], []).
Proof.
  split; [|split].
  - apply (proj1 (proj2 (proj2
             (presence_check_exact Sample.convert
                (Request "" (Some Sample.alex_body)) [])))
             Sample.alex_body eq_refl).
    intros f Hf Hv. unfold create_fields in Hf.
    apply truthy_false in Hv. by each_of Hf.
  - apply (proj1 (proj1 (presence_check_exact Sample.convert
             (Request "" (Some (<["email" := JNull]> Sample.alex_body))) []))).
    exists (<["email" := JNull]> Sample.alex_body). split; [reflexivity|].
    exists "email". split; in_list.
  - apply (proj1 (proj2 (proj2 (proj2 (proj2
             (presence_check_exact Sample.convert (Request "" None) []))))
             eq_refl)).
Defined.

(* ===================================================================== *)
(** ** Further properties: the repeated mounts *)
(* ===================================================================== *)

(** X15.  The repetitions of [app.js] change nothing: with the read
    router mounted once instead of three times and [/health] registered
    once instead of twice, every request is sent to the same route. *)
Theorem repeated_mounts_redundant m url :
  route_of app m url = route_of app_once m url
  /\ dispatch app m url = dispatch app_once m url.
Proof.
  assert (route_of app m url = route_of app_once m url) as H.
  { unfold route_of. rewrite routes_app.
    change (routes app_once) with
      [ Route POST [Lit "api"; Lit "employees"] CreateEmployee;
        Route GET [Lit "api"; Lit "employees"] ReadEmployees;
        Route GET [Lit "api"; Lit "employees"; Param "employee_id"] ReadEmployee;
        Route PUT [Lit "api"; Lit "employees"; Param "employee_id"] UpdateEmployee;
        Route DELETE [Lit "api"; Lit "employees"; Param "employee_id"] DeleteEmployee;
        Route GET [] Root;
        Route GET [Lit "health"] Health ].
    cbn [List.find].
    repeat match goal with
           | |- context [if serves ?r m url then _ else _] =>
               destruct (serves r m url) eqn:?
           end; congruence. }
  split; [done|]. unfold dispatch. fold (route_of app m url).
  fold (route_of app_once m url). by rewrite H.
Qed.

(* ===================================================================== *)
(** ** Further properties: the email pattern *)
(* ===================================================================== *)

Lemma append_cons c (s t : string) : String c s +:+ t = String c (s +:+ t).
Proof. reflexivity. Qed.

Lemma append_assoc (s1 s2 s3 : string) :
  (s1 +:+ s2) +:+ s3 = s1 +:+ s2 +:+ s3.
Proof.
  induction s1 as [|c s1 IH]; [done|]. by rewrite !append_cons, IH.
Qed.

Lemma all_nonspace_app s1 s2 :
  all_nonspace (s1 +:+ s2) = all_nonspace s1 && all_nonspace s2.
Proof.
  induction s1 as [|c s1 IH]; [done|].
  rewrite append_cons. cbn [all_nonspace]. by rewrite IH, andb_assoc.
Qed.

(** A non-empty string ends in a character. *)
Lemma string_last s : s <> "" -> exists s' c, s = s' +:+ String c "".
Proof.
  induction s as [|c s IH]; [done|]. intros _.
  destruct s as [|c' s].
  - by exists "", c.
  - destruct IH as (s' & x & Hs); [done|]. exists (String c s'), x.
    by rewrite append_cons, <- Hs.
Qed.

Lemma domain_sound seen s :
  domain seen s = true ->
  exists b x post,
    s = b +:+ "." +:+ String x post
    /\ all_nonspace b = true /\ is_space x = false
    /\ (seen = false -> b <> "").
Proof.
  revert seen. induction s as [|c s IH]; intros seen; cbn [domain]; [done|].
  intros [Hc [H|H]%orb_true_iff]%andb_true_iff.
  - apply andb_true_iff in H as [[Hseen Hdot]%andb_true_iff Hx].
    apply Ascii.eqb_eq in Hdot as ->.
    destruct s as [|x post]; [done|]. cbn in Hx.
    exists "", x, post. repeat split; [by apply negb_true_iff|].
    intros ->. discriminate.
  - destruct (IH true H) as (b & x & post & -> & Hb & Hx & _).
    exists (String c b), x, post. repeat split; [|done|done].
    cbn [all_nonspace]. by rewrite Hc, Hb.
Qed.

Lemma domain_complete seen b x post :
  all_nonspace b = true -> is_space x = false ->
  (seen = false -> b <> "") ->
  domain seen (b +:+ "." +:+ String x post) = true.
Proof.
  revert seen. induction b as [|c b IH]; intros seen Hb Hx Hseen.
  - destruct seen; [|by destruct Hseen].
    change ("" +:+ "." +:+ String x post) with (String "." (String x post)).
    cbn. by rewrite Hx.
  - cbn [all_nonspace] in Hb. apply andb_true_iff in Hb as [Hc Hb].
    rewrite append_cons. cbn [domain]. rewrite Hc, (IH true Hb Hx); [|done].
    by rewrite orb_true_r.
Qed.

Lemma test_from_sound prev s :
  test_from prev s = true ->
  (prev = true /\ exists tl, s = String "@" tl /\ domain false tl = true)
  \/ exists pre x tl,
       s = pre +:+ String x (String "@" tl)
       /\ is_space x = false /\ domain false tl = true.
Proof.
  revert prev. induction s as [|c s IH]; intros prev; cbn [test_from]; [done|].
  intros [H|H]%orb_true_iff.
  - apply andb_true_iff in H as [[Hp Hat]%andb_true_iff Hd].
    apply Ascii.eqb_eq in Hat as ->. left. split; [done|]. by exists s.
  - right. destruct (IH _ H) as [[Hc (tl & -> & Hd)]|(pre & x & tl & -> & Hx & Hd)].
    + exists "", c, tl. repeat split; [|done]. by apply negb_true_iff.
    + by exists (String c pre), x, tl.
Qed.

Lemma test_from_complete prev pre x tl :
  is_space x = false -> domain false tl = true ->
  test_from prev (pre +:+ String x (String "@" tl)) = true.
Proof.
  intros Hx Hd. revert prev.
  induction pre as [|c pre IH]; intros prev.
  - change ("" +:+ String x (String "@" tl)) with (String x (String "@" tl)).
    cbn [test_from]. rewrite Hx, Hd. cbn. by rewrite orb_true_r.
  - rewrite append_cons. cbn [test_from]. by rewrite IH, orb_true_r.
Qed.

(** X16.  The search that stands for [/\S+@\S+\.\S+/] accepts exactly the
    strings in which the pattern occurs: three non-empty runs of
    non-space characters, the first two separated by [@], the last two
    by a dot, anywhere in the string. *)
Theorem email_regex_shape s : email_regex s = true <-> email_shape s.
Proof.
  unfold email_regex, email_shape. split.
  - intros [[? _]|(pre & x & tl & -> & Hx & Hd)]%test_from_sound; [done|].
    apply domain_sound in Hd as (b & y & post & -> & Hb & Hy & Hne).
    exists pre, (String x ""), b, (String y ""), post.
    repeat split; try done; try (by apply Hne); cbn; by rewrite ?Hx, ?Hy.
  - intros (pre & a & b & c & post & -> & Ha & Hb & Hc & Na & Nb & Nc).
    destruct (string_last a Ha) as (a' & x & ->).
    destruct c as [|y c']; [done|].
    rewrite all_nonspace_app in Na. apply andb_true_iff in Na as [_ Nx].
    cbn in Nx, Nc. rewrite andb_true_r in Nx.
    apply andb_true_iff in Nc as [Ny _].
    rewrite append_assoc, <- (append_assoc pre a').
    change (String x "" +:+ "@" +:+ b +:+ "." +:+ String y c' +:+ post)
      with (String x (String "@" (b +:+ "." +:+ String y (c' +:+ post)))).
    apply test_from_complete; [by apply negb_true_iff|].
    apply domain_complete; [done|by apply negb_true_iff|done].
Qed.

(* ===================================================================== *)
(** ** Further properties: refusals change nothing *)
(* ===================================================================== *)

Section Refusals.
Variable convert : SchemaTypeName -> jsval -> option jsval.

Lemma exec_update_rejected k u c e c' :
  exec convert (findOneAndUpdate k u) c = (Rejected e, c') -> c' = c.
Proof. intros H. by apply exec_update_inv in H. Qed.

Lemma exec_update_null k u c c' :
  exec convert (findOneAndUpdate k u) c = (Resolved None, c') -> c' = c.
Proof. intros H. by apply exec_update_inv in H as (-> & _). Qed.

(** X17.  A refusal changes nothing: whenever one of the five handlers
    answers 400 or 404, the collection is as it was before the request. *)
Theorem refusal_leaves_collection e h req c r :
  handler e = Some h ->
  answer convert (h req) c = Resolved r ->
  status r = 400%nat \/ status r = 404%nat ->
  after convert (h req) c = c.
Proof.
  unfold answer, after. intros He Hr Hs.
  destruct e; cbn [handler] in He; try discriminate; injection He as <-.
  - destruct (body req) as [b|] eqn:Hb;
      [|by rewrite (createEmployee_unparsed convert req c Hb)].
    destruct (falsy_field_dec create_fields b) as [(f & Hf & Hv)|Hall].
    + by rewrite (createEmployee_falsy convert req b c f Hb Hf Hv).
    + rewrite (createEmployee_truthy convert req b c Hb Hall) in *.
      destruct (exec convert _ c) as [[d|err] c'] eqn:Hx; cbn [fst snd] in *.
      * injection Hr as <-. cbn in Hs. by destruct Hs.
      * by apply exec_save_rejected in Hx.
  - by destruct c.
  - unfold readEmployee.
    cbn [try_catch mbind prog_bind bind await run exec fst snd].
    by destruct (List.find _ c).
  - destruct (body req) as [b|] eqn:Hb;
      [|by rewrite (updateEmployee_unparsed convert req c Hb)].
    destruct (falsy_field_dec update_fields b) as [(f & Hf & Hv)|Hall].
    + by rewrite (updateEmployee_falsy convert req b c f Hb Hf Hv).
    + rewrite (updateEmployee_truthy convert req b c Hb Hall) in *.
      cbv zeta in *.
      destruct (exec convert _ c) as [[[d|]|err] c'] eqn:Hx; cbn [fst snd] in *.
      * injection Hr as <-. cbn in Hs. by destruct Hs.
      * by apply exec_update_null in Hx.
      * by apply exec_update_rejected in Hx.
  - unfold deleteEmployee in *.
    cbn [try_catch mbind prog_bind bind await run exec fst snd] in *.
    destruct (split_first _ c) as [[[before d] rest]|]; [|done].
    cbn in Hr. injection Hr as <-. cbn in Hs. by destruct Hs.
Qed.

(** X18.  The unique index on email at work on PUT: when the email of the
    body is a string held by a document other than the one to update, the
    answer is 400 and nothing is written. *)
Theorem updateEmployee_email_taken req o before d rest m :
  let k := params_employee_id req in
  body req = Some o ->
  employee_id d = JStr k ->
  (forall x, x ∈ before -> employee_id x <> JStr k) ->
  get o "email" = JStr m ->
  (exists x, x ∈ before ++ rest /\ email x = JStr m) ->
  (exists e, answer convert (updateEmployee req) (before ++ d :: rest)
             = Resolved (status_json 400 (message e)))
  /\ after convert (updateEmployee req) (before ++ d :: rest)
     = before ++ d :: rest.
Proof.
  intros k Hbody Hd Hb Hm (x & Hx & Hxm). unfold answer, after.
  destruct (falsy_field_dec update_fields o) as [(f & Hf & Hv)|Hall].
  { rewrite (updateEmployee_falsy convert req o _ f Hbody Hf Hv). by eauto. }
  rewrite (updateEmployee_truthy convert req o _ Hbody Hall). cbv zeta. fold k.
  destruct (exec convert _ (before ++ d :: rest)) as [y c'] eqn:He.
  cbn [fst snd]. pose proof He as Hinv. apply exec_update_inv in Hinv.
  destruct y as [[d'|]|e].
  - exfalso.
    destruct Hinv as (u' & b0 & d0 & r0 & Hu & Hc & Hd0 & Hb0 & Hfree & -> & _).
    assert (split_first (has_employee_id k) (before ++ d :: rest)
            = Some (before, d, rest)) as H1.
    { apply split_first_app; [by apply absent_Forall|by apply has_employee_id_true]. }
    assert (split_first (has_employee_id k) (before ++ d :: rest)
            = Some (b0, d0, r0)) as H2.
    { rewrite Hc. apply split_first_app;
        [by apply absent_Forall|by apply has_employee_id_true]. }
    rewrite H1 in H2. injection H2 as <- <- <-.
    apply (Hfree x Hx). rewrite Hxm.
    unfold cast_update, update_of in Hu.
    cbn [set_name set_email set_job_title set_age set_date_hired] in Hu.
    rewrite Hm in Hu.
    destruct (cast_path convert "name" _) as [v1|]; [|discriminate].
    change (cast_path convert "email" (JStr m)) with (Some (JStr m)) in Hu.
    destruct (cast_path convert "job_title" _) as [v3|]; [|discriminate].
    destruct (cast_path convert "age" _) as [v4|]; [|discriminate].
    destruct (cast_path convert "date_hired" _) as [v5|]; [|discriminate].
    cbn in Hu. injection Hu as <-. done.
  - exfalso. destruct Hinv as (_ & Hnone & _).
    apply (Hnone d); [|done]. apply elem_of_app. right. apply list_elem_of_here.
  - subst c'. by eauto.
Qed.

End Refusals.

(* ===================================================================== *)
(** ** Witnesses of the further properties *)
(* ===================================================================== *)

Lemma sample_unique_index : unique_index [Sample.alex; Sample.sam].
Proof.
  intros p Hp. unfold unique_paths in Hp. cbn in Hp.
  each_of Hp; repeat constructor; set_unfold; intros H;
    destruct_or?; discriminate || done.
Defined.

(** X1 at work: a second POST of [alex] is rejected by the unique
    index. *)
Lemma createEmployee_save_rejected_witness :
  answer Sample.convert (createEmployee (Request "" (Some Sample.alex_body)))
    [Sample.alex]
  = Resolved (status_json 400
      (message "E11000 duplicate key error collection: employees index: employee_id_1"))
  /\ after Sample.convert (createEmployee (Request "" (Some Sample.alex_body)))
       [Sample.alex]
     = [Sample.alex].
Proof.
  apply (createEmployee_save_rejected Sample.convert
           (Request "" (Some Sample.alex_body)) [Sample.alex]
           (new_employee Sample.alex_body)).
  vm_compute. apply list_elem_of_here.
Defined.

(** X4 at work on the body of [alex]. *)
Lemma create_then_read_witness :
  exists k,
    employee_id Sample.alex = JStr k
    /\ (forall o,
          answer Sample.convert (readEmployee (Request k o))
            (after Sample.convert
               (createEmployee (Request "" (Some Sample.alex_body))) [Sample.sam])
          = Resolved (status_json 200 (employee Sample.alex)))
    /\ (forall r,
          answer Sample.convert (readEmployees r)
            (after Sample.convert
               (createEmployee (Request "" (Some Sample.alex_body))) [Sample.sam])
          = Resolved (status_json 200
              (employees ([Sample.sam] ++ [Sample.alex])))).
Proof.
  apply (create_then_read Sample.convert (Request "" (Some Sample.alex_body))
           [Sample.sam] Sample.alex).
  vm_compute. reflexivity.
Defined.

(** X5 at work: the email of [alex] under a new employee_id. *)
Lemma createEmployee_taken_witness :
  (exists e,
     answer Sample.convert
       (createEmployee
          (Request "" (Some (<["employee_id" := JStr "emp789"]> Sample.alex_body))))
       [Sample.alex; Sample.sam]
     = Resolved (status_json 400 (message e)))
  /\ after Sample.convert
       (createEmployee
          (Request "" (Some (<["employee_id" := JStr "emp789"]> Sample.alex_body))))
       [Sample.alex; Sample.sam]
     = [Sample.alex; Sample.sam].
Proof.
  apply (createEmployee_taken Sample.convert
           (Request "" (Some (<["employee_id" := JStr "emp789"]> Sample.alex_body)))
           (<["employee_id" := JStr "emp789"]> Sample.alex_body)
           [Sample.alex; Sample.sam] "email" "alex@college.com").
  - reflexivity.
  - right. reflexivity.
  - vm_compute. reflexivity.
  - exists Sample.alex. split; [apply list_elem_of_here|reflexivity].
Defined.

(** X6 at work on the promotion of [sam]. *)
Lemma update_then_read_witness :
  answer Sample.convert (readEmployee (Request "emp456" (Some ∅)))
    (after Sample.convert
       (updateEmployee (Request "emp456" (Some Sample.promotion_body)))
       [Sample.alex; Sample.sam])
  = Resolved (status_json 200 (employee Sample.sam_promoted)).
Proof.
  refine (update_then_read Sample.convert
            (Request "emp456" (Some Sample.promotion_body))
            [Sample.alex; Sample.sam] Sample.sam_promoted _ (Some ∅)).
  vm_compute. reflexivity.
Defined.

(** X7 at work on the promotion of [sam]. *)
Lemma update_twice_witness :
  answer Sample.convert
    (updateEmployee (Request "emp456" (Some Sample.promotion_body)))
    (after Sample.convert
       (updateEmployee (Request "emp456" (Some Sample.promotion_body)))
       [Sample.alex; Sample.sam])
  = Resolved (status_json 200 (employee Sample.sam_promoted))
  /\ after Sample.convert
       (updateEmployee (Request "emp456" (Some Sample.promotion_body)))
       (after Sample.convert
          (updateEmployee (Request "emp456" (Some Sample.promotion_body)))
          [Sample.alex; Sample.sam])
     = after Sample.convert
         (updateEmployee (Request "emp456" (Some Sample.promotion_body)))
         [Sample.alex; Sample.sam].
Proof.
  apply (update_twice Sample.convert
           (Request "emp456" (Some Sample.promotion_body))
           [Sample.alex; Sample.sam] Sample.sam_promoted).
  vm_compute. reflexivity.
Defined.

(** X8 at work: [alex] is deleted from a collection of two. *)
Lemma delete_then_gone_witness :
  (forall o,
     answer Sample.convert (readEmployee (Request "emp123" o))
       (after Sample.convert (deleteEmployee (Request "emp123" (Some ∅)))
          [Sample.alex; Sample.sam])
     = Resolved (status_json 404
         (message ("Employee with ID " +:+ "emp123" +:+ " not found"))))
  /\ (forall o,
        answer Sample.convert (deleteEmployee (Request "emp123" o))
          (after Sample.convert (deleteEmployee (Request "emp123" (Some ∅)))
             [Sample.alex; Sample.sam])
        = Resolved (status_json 404
            (message ("Employee with employee_id " +:+ "emp123"
                      +:+ " not found")))
        /\ after Sample.convert (deleteEmployee (Request "emp123" o))
             (after Sample.convert (deleteEmployee (Request "emp123" (Some ∅)))
                [Sample.alex; Sample.sam])
           = after Sample.convert (deleteEmployee (Request "emp123" (Some ∅)))
               [Sample.alex; Sample.sam]).
Proof.
  apply (delete_then_gone Sample.convert (Request "emp123" (Some ∅))
           [Sample.alex; Sample.sam]
           "Employee with employee_id emp123 deleted successfully").
  - apply sample_unique_index.
  - reflexivity.
Defined.

(** X9 at work: [alex] is the only employee. *)
Lemma delete_last_then_list_witness :
  after Sample.convert (deleteEmployee (Request "emp123" (Some ∅))) [Sample.alex] = []
  /\ answer Sample.convert (readEmployees (Request "" (Some ∅)))
       (after Sample.convert (deleteEmployee (Request "emp123" (Some ∅))) [Sample.alex])
     = Resolved (status_json 404 (message "No employees found")).
Proof.
  apply (delete_last_then_list Sample.convert (Request "emp123" (Some ∅)) Sample.alex
           "Employee with employee_id emp123 deleted successfully").
  reflexivity.
Defined.

(** X17 at work: a PUT on an unknown employee_id. *)
Lemma refusal_leaves_collection_witness :
  after Sample.convert
    (updateEmployee (Request "emp999" (Some Sample.promotion_body)))
    [Sample.alex; Sample.sam]
  = [Sample.alex; Sample.sam].
Proof.
  apply (refusal_leaves_collection Sample.convert UpdateEmployee updateEmployee
           (Request "emp999" (Some Sample.promotion_body)) [Sample.alex; Sample.sam]
           (status_json 404
              (message "Employee with employee_id emp999 not found"))).
  - reflexivity.
  - vm_compute. reflexivity.
  - right. reflexivity.
Defined.

(** X18 at work: the email of [alex] in a PUT for [sam]. *)
Lemma updateEmployee_email_taken_witness :
  (exists e,
     answer Sample.convert
       (updateEmployee (Request "emp456" (Some Sample.taken_email_body)))
       ([Sample.alex] ++ Sample.sam :: [])
     = Resolved (status_json 400 (message e)))
  /\ after Sample.convert
       (updateEmployee (Request "emp456" (Some Sample.taken_email_body)))
       ([Sample.alex] ++ Sample.sam :: [])
     = [Sample.alex] ++ Sample.sam :: [].
Proof.
  apply (updateEmployee_email_taken Sample.convert
           (Request "emp456" (Some Sample.taken_email_body))
           Sample.taken_email_body
           [Sample.alex] Sample.sam [] "alex@college.com").
  - reflexivity.
  - reflexivity.
  - intros x Hx. each_of Hx; discriminate.
  - vm_compute. reflexivity.
  - exists Sample.alex. split; [apply list_elem_of_here|reflexivity].
Defined.
